(** * source-elasticsearch: a shallow embedding of [source.py]

    The connector has three operations: [check] (ping the engine),
    [discover] (list the indices and translate their field mappings into
    JSON-schema properties) and [read] (scroll through the documents of an
    index and emit one record per document).

    Python values that come from the outside (the configuration, the
    responses of the Elasticsearch client) are modelled by a type [json] of
    parsed JSON values, with the Python operations the connector applies to
    them ([d[k]], [k in d], [d.items()], truthiness, iteration) written out
    together with the exception each one raises on a value of the wrong
    shape.  Exceptions are explicit: every fallible computation returns a
    [result].  The Elasticsearch client is an interface (a record of
    operations over the state of the remote engine); a reference engine that
    implements the scroll protocol is given at the end of the definitions. *)

From Stdlib Require Import List String Ascii ZArith Lia Bool.
From Stdlib Require Import DecimalString.
Import ListNotations.
Open Scope string_scope.
Open Scope Z_scope.

Set Warnings "-register-all".

(** ** Exceptions and results *)

Inductive exception : Type :=
| KeyError (key : string)
| TypeError
| AttributeError
| UnsupportedDataTypeException (message : string)
| ClientException (message : string)
| ValidationError.
(* [ClientException] stands for any exception raised inside the
   elasticsearch library (transport, request and configuration errors);
   [ValidationError] is raised by the constructor of a message class. *)

Inductive result (A : Type) : Type :=
| Ok (a : A)
| Raise (e : exception).

Arguments Ok {A} a.
Arguments Raise {A} e.

Definition bind {A B : Type} (c : result A) (k : A -> result B) : result B :=
  match c with
  | Ok a => k a
  | Raise e => Raise e
  end.

Notation "x <- c ;; k" := (bind c (fun x => k))
  (at level 61, c at next level, right associativity).

(** ** Python dictionaries with string keys

    A [dict] keeps its items in insertion order; [dict_set] is [d[k] = v]:
    an existing key keeps its place and gets the new value, a new key goes
    to the end. *)

Definition dict (V : Type) : Type := list (string * V).

Fixpoint dict_get {V : Type} (d : dict V) (k : string) : option V :=
  match d with
  | [] => None
  | (k', v) :: d' => if String.eqb k k' then Some v else dict_get d' k
  end.

Definition dict_contains {V : Type} (d : dict V) (k : string) : bool :=
  match dict_get d k with
  | Some _ => true
  | None => false
  end.

Fixpoint dict_set {V : Type} (d : dict V) (k : string) (v : V) : dict V :=
  match d with
  | [] => [(k, v)]
  | (k', v') :: d' =>
      if String.eqb k k' then (k', v) :: d' else (k', v') :: dict_set d' k v
  end.

Definition dict_keys {V : Type} (d : dict V) : list string := map fst d.

(** [k in l] for a Python list of strings. *)
Fixpoint list_contains (l : list string) (k : string) : bool :=
  match l with
  | [] => false
  | x :: l' => String.eqb k x || list_contains l' k
  end.

(** ** JSON values as Python sees them

    A number is an integer here: the connector never computes with a
    number it receives, and no statement below depends on a fraction. *)

Inductive json : Type :=
| JNull
| JBool (b : bool)
| JNum (n : Z)
| JStr (s : string)
| JArr (l : list json)
| JObj (d : list (string * json)).

(** [j[k]] with a string key: [KeyError] on a dict without the key,
    [TypeError] on anything that is not a dict. *)
Definition getitem (j : json) (k : string) : result json :=
  match j with
  | JObj d =>
      match dict_get d k with
      | Some v => Ok v
      | None => Raise (KeyError k)
      end
  | _ => Raise TypeError
  end.

(** [j.items()]: only dicts have the method. *)
Definition items (j : json) : result (dict json) :=
  match j with
  | JObj d => Ok d
  | _ => Raise AttributeError
  end.

(** [sub in s] for two Python strings. *)
Fixpoint is_substring (sub s : string) : bool :=
  String.prefix sub s
  || match s with
     | EmptyString => false
     | String _ s' => is_substring sub s'
     end.

Definition is_str (k : string) (j : json) : bool :=
  match j with
  | JStr s => String.eqb k s
  | _ => false
  end.

(** [k in j] with a string [k]: key membership on a dict, element
    membership on a list, substring test on a string, [TypeError] on the
    values that are not containers. *)
Definition py_in (k : string) (j : json) : result bool :=
  match j with
  | JObj d => Ok (dict_contains d k)
  | JArr l => Ok (existsb (is_str k) l)
  | JStr s => Ok (is_substring k s)
  | _ => Raise TypeError
  end.

(** Truth value of [j] in a condition. *)
Definition py_bool (j : json) : bool :=
  match j with
  | JNull => false
  | JBool b => b
  | JNum n => negb (Z.eqb n 0)
  | JStr s => negb (String.eqb s "")
  | JArr l => match l with [] => false | _ => true end
  | JObj d => match d with [] => false | _ => true end
  end.

Fixpoint chars (s : string) : list json :=
  match s with
  | EmptyString => []
  | String c s' => JStr (String c EmptyString) :: chars s'
  end.

(** The values [for x in j] visits: the elements of a list, the keys of a
    dict, the characters of a string. *)
Definition py_iter (j : json) : result (list json) :=
  match j with
  | JArr l => Ok l
  | JObj d => Ok (map (fun kv => JStr (fst kv)) d)
  | JStr s => Ok (chars s)
  | _ => Raise TypeError
  end.

(** The values that can be hashed, hence used as the key of a dict lookup:
    [None], booleans, numbers and strings.  Lists and dicts cannot
    ([TypeError: unhashable type]). *)
Inductive scalar : Type :=
| SNone
| SBool (b : bool)
| SNum (n : Z)
| SStr (s : string).

Definition as_key (j : json) : result scalar :=
  match j with
  | JNull => Ok SNone
  | JBool b => Ok (SBool b)
  | JNum n => Ok (SNum n)
  | JStr s => Ok (SStr s)
  | JArr _ | JObj _ => Raise TypeError
  end.

(** [str(x)], as an f-string interpolates it. *)
Definition py_str (x : scalar) : string :=
  match x with
  | SNone => "None"
  | SBool true => "True"
  | SBool false => "False"
  | SNum n => NilZero.string_of_int (Z.to_int n)
  | SStr s => s
  end.

(** ** The message types of the Airbyte protocol (airbyte_cdk.models)

    Only the fields the connector sets or reads.  Rocq projections share one
    name space, so a field that two classes have carries the class in its
    name. *)

Inductive Status : Type := SUCCEEDED | FAILED.

Record AirbyteConnectionStatus : Type := {
  status : Status;
  message : option string
}.

Record AirbyteStream : Type := {
  name : string;
  json_schema : json;
  supported_sync_modes : list string
}.

Record AirbyteCatalog : Type := {
  catalog_streams : list AirbyteStream
}.

Record ConfiguredAirbyteStream : Type := {
  stream : AirbyteStream
}.

Record ConfiguredAirbyteCatalog : Type := {
  streams : list ConfiguredAirbyteStream
}.

Inductive MessageType : Type := RECORD | STATE | LOG.

Record AirbyteRecordMessage : Type := {
  record_stream : string;
  data : json;
  emitted_at : Z
}.

Record AirbyteMessage : Type := {
  type : MessageType;
  record : option AirbyteRecordMessage
}.

(** ** The Elasticsearch client

    The methods the connector calls, over the state [Remote] of the engine
    the client talks to.  [ping] and the two [indices] calls only read that
    state; [search] (with a scroll) and [scroll] also change it, since the
    engine keeps the cursor. *)

Record Elasticsearch (Remote : Type) : Type := {
  ping : Remote -> result bool;
  indices_get : string -> Remote -> result json;
  indices_get_mapping : string -> Remote -> result json;
  (* search(index=, body=, size=, scroll=) *)
  search : string -> json -> json -> string -> Remote -> result json * Remote;
  (* scroll(scroll_id=, scroll=) *)
  scroll : json -> string -> Remote -> result json * Remote
}.

Arguments ping {Remote} _ _.
Arguments indices_get {Remote} _ _ _.
Arguments indices_get_mapping {Remote} _ _ _.
Arguments search {Remote} _ _ _ _ _ _.
Arguments scroll {Remote} _ _ _ _.

(** ** class SourceElasticsearch *)

Definition system_indices : list string :=
  [ ".kibana_1";
    ".opendistro_security" ].

Definition es_to_json_type_mapping : dict string :=
  [ ("boolean", "boolean");
    ("text", "string");
    ("date", "string");
    ("date_nanos", "string");
    ("long", "integer");
    ("unsigned_long", "integer");
    ("integer", "integer");
    ("short", "integer");
    ("byte", "integer");
    ("double", "number");
    ("float", "number");
    ("half_float", "number");
    ("scaled_float", "number") ].

(** [es_to_json_type_mapping.get(x)]: every key of the table is a string, so
    a key of another type matches none. *)
Definition mapping_get (x : scalar) : option string :=
  match x with
  | SStr s => dict_get es_to_json_type_mapping s
  | _ => None
  end.

(** The body of the [try] in [_get_index_json_properties], for one field
    that is not skipped: the value stored under the field's name.

    [property_attributes["type"]] raises [KeyError] when the key is missing;
    the [except KeyError] clause catches it, but evaluates the same lookup
    again for its message, which raises [KeyError] out of the handler.  A
    [TypeError] (attributes that are not a dict, a type that cannot be
    hashed) is not caught.  A type that is hashable and not in the table
    raises [KeyError] from the table lookup, and the handler turns it into
    [UnsupportedDataTypeException]. *)
Definition json_property (property_attributes : json) : result json :=
  declared <- getitem property_attributes "type" ;;
  key <- as_key declared ;;
  match mapping_get key with
  | Some json_type => Ok (JObj [("type", JStr json_type)])
  | None =>
      Raise (UnsupportedDataTypeException
               ("Unsupported data type: " ++ py_str key))
  end.

(** The [for] loop of [_get_index_json_properties] over
    [es_properties.items()], with [json_properties] as accumulator. *)
Fixpoint json_properties_loop (es_properties : dict json)
    (json_properties : dict json) : result (dict json) :=
  match es_properties with
  | [] => Ok json_properties
  | (property_name, property_attributes) :: rest =>
      nested <- py_in "properties" property_attributes ;;
      if (nested : bool) then json_properties_loop rest json_properties
      else
        property <- json_property property_attributes ;;
        json_properties_loop rest
          (dict_set json_properties property_name property)
  end.

(** A dict comprehension [{k: v for k, v in its}]. *)
Definition dict_of_items {V : Type} (its : list (string * V)) : dict V :=
  fold_left (fun d kv => dict_set d (fst kv) (snd kv)) its [].

Definition not_system_index (kv : string * json) : bool :=
  negb (list_contains system_indices (fst kv)).

(** [int(datetime.now().timestamp()) * 1000], for a clock that reads
    [now] microseconds since the epoch (the resolution of [datetime]):
    [int] truncates the seconds towards zero. *)
Definition timestamp_ms (now : Z) : Z := (now ÷ 1000000) * 1000.

(** *** The body of a record

    Modelled from the spec: the class [AirbyteRecordMessage] is declared in
    [airbyte_cdk.models], not in the connector; a record holds one
    document's source fields.  The class is a pydantic model whose field is
    [data: Dict[str, Any]]: its constructor takes a dict as it is, turns
    any other value into a dict with [dict(value)] when Python can, checks
    that every key is a string (a number or a boolean becomes its [str],
    [None] is refused), and raises [ValidationError] otherwise. *)

(** [x == y] for two keys. *)
Definition key_eqb (x y : scalar) : bool :=
  match x, y with
  | SNone, SNone => true
  | SStr a, SStr b => String.eqb a b
  | SBool a, SBool b => Bool.eqb a b
  | SNum a, SNum b => Z.eqb a b
  | SBool a, SNum b | SNum b, SBool a => Z.eqb (if a then 1 else 0) b
  | _, _ => false
  end.

(** [d[k] = v] on a dict whose keys are any hashable values. *)
Fixpoint keyed_set (d : list (scalar * json)) (k : scalar) (v : json)
  : list (scalar * json) :=
  match d with
  | [] => [(k, v)]
  | (k', v') :: d' =>
      if key_eqb k k' then (k', v) :: d' else (k', v') :: keyed_set d' k v
  end.

(** An item of [dict(iterable)] must itself iterate to exactly two
    objects, the key and the value. *)
Definition two_objects (item : json) : option (json * json) :=
  match py_iter item with
  | Ok [k; v] => Some (k, v)
  | _ => None
  end.

(** [dict(items)], [None] when Python raises [TypeError] or [ValueError]. *)
Fixpoint dict_from_pairs (its : list json) (d : list (scalar * json))
  : option (list (scalar * json)) :=
  match its with
  | [] => Some d
  | item :: rest =>
      match two_objects item with
      | Some (k, v) =>
          match as_key k with
          | Ok x => dict_from_pairs rest (keyed_set d x v)
          | Raise _ => None
          end
      | None => None
      end
  end.

(** The key a [Dict[str, Any]] keeps for [x]. *)
Definition str_key (x : scalar) : option string :=
  match x with
  | SNone => None
  | _ => Some (py_str x)
  end.

Fixpoint str_keys (d : list (scalar * json)) (validated : dict json)
  : option (dict json) :=
  match d with
  | [] => Some validated
  | (k, v) :: d' =>
      match str_key k with
      | Some s => str_keys d' (dict_set validated s v)
      | None => None
      end
  end.

(** What the constructor stores in [data] for the value it is given. *)
Definition validate_data (v : json) : result json :=
  match v with
  | JObj d => Ok (JObj d)
  | _ =>
      match py_iter v with
      | Ok its =>
          match dict_from_pairs its [] with
          | Some d =>
              match str_keys d [] with
              | Some validated => Ok (JObj validated)
              | None => Raise ValidationError
              end
          | None => Raise ValidationError
          end
      | Raise _ => Raise ValidationError
      end
  end.

(** The message built at the [yield], while the clock reads [now]. *)
Definition record_message (index_name : string) (source : json) (now : Z)
  : AirbyteMessage :=
  {| type := RECORD;
     record := Some {| record_stream := index_name;
                       data := source;
                       emitted_at := timestamp_ms now |} |}.

Inductive MessageOrStop : Type :=
| Yield (m : AirbyteMessage)
| StopIteration
| Throw (e : exception).

Section Connector.

Context {Remote : Type}.

(** The constructor [Elasticsearch(hosts=[host], http_auth=(username,
    password))] of the client library. *)
Variable new_Elasticsearch : json -> json -> json -> result (Elasticsearch Remote).

(** [config['host']] is evaluated first for the log line. *)
Definition _get_es_client (config : json) : result (Elasticsearch Remote) :=
  _ <- getitem config "host" ;;
  host <- getitem config "host" ;;
  username <- getitem config "username" ;;
  password <- getitem config "password" ;;
  new_Elasticsearch host username password.

Definition check (config : json) (remote : Remote)
  : result AirbyteConnectionStatus :=
  es <- _get_es_client config ;;
  alive <- ping es remote ;;
  if negb alive
  then Ok {| status := FAILED; message := Some "Connection failed" |}
  else Ok {| status := SUCCEEDED; message := None |}.

Definition _get_indices (es : Elasticsearch Remote) (remote : Remote)
  : result (dict json) :=
  all <- indices_get es "*" remote ;;
  its <- items all ;;
  Ok (dict_of_items (filter not_system_index its)).

(** [es.indices.get_mapping(index=index)[index]["mappings"]["properties"]] *)
Definition es_properties (es : Elasticsearch Remote) (index : string)
    (remote : Remote) : result json :=
  response <- indices_get_mapping es index remote ;;
  of_index <- getitem response index ;;
  mappings <- getitem of_index "mappings" ;;
  getitem mappings "properties".

Definition _get_index_json_properties (es : Elasticsearch Remote)
    (index : string) (remote : Remote) : result (dict json) :=
  properties <- es_properties es index remote ;;
  its <- items properties ;;
  json_properties_loop its [].

(** The [for index_name in indices.keys()] loop of [discover]. *)
Fixpoint discover_loop (es : Elasticsearch Remote) (remote : Remote)
    (index_names : list string) (streams : list AirbyteStream)
  : result (list AirbyteStream) :=
  match index_names with
  | [] => Ok streams
  | index_name :: rest =>
      properties <- _get_index_json_properties es index_name remote ;;
      let json_schema :=
        JObj [ ("$schema", JStr "http://json-schema.org/draft-07/schema#");
               ("type", JStr "object");
               ("properties", JObj properties) ] in
      discover_loop es remote rest
        (streams ++ [ {| name := index_name;
                         json_schema := json_schema;
                         supported_sync_modes := ["full_refresh"] |} ])
  end.

Definition discover (config : json) (remote : Remote)
  : result AirbyteCatalog :=
  es <- _get_es_client config ;;
  indices <- _get_indices es remote ;;
  streams <- discover_loop es remote (dict_keys indices) [] ;;
  Ok {| catalog_streams := streams |}.

(** *** The generator of [_scroll_through_index]

    Calling a generator function runs nothing: it returns a generator
    that is [Created].  Each [next] runs the body up to the next [yield],
    where the generator is [Suspended] inside the [for] loop with the hits
    of the current page it has still to visit.  A generator that returned
    or raised is [Finished]. *)

Inductive generator : Type :=
| Created (es : Elasticsearch Remote) (index_name : string) (page_size : json)
| Suspended (es : Elasticsearch Remote) (index_name : string)
    (scroll_id : json) (pending : list json)
| Finished.

Definition _scroll_through_index (es : Elasticsearch Remote)
    (index_name : string) (page_size : json) : generator :=
  Created es index_name page_size.

(** The body of the inner [for]: build the message for [hit] and yield
    it, leaving [pending] to visit.  The constructor of the record
    validates [hit["_source"]] as the body. *)
Definition yield_hit (es : Elasticsearch Remote) (index_name : string)
    (scroll_id : json) (hit : json) (pending : list json) (now : Z)
  : MessageOrStop * generator :=
  match source <- getitem hit "_source" ;; validate_data source with
  | Raise e => (Throw e, Finished)
  | Ok body =>
      (Yield (record_message index_name body now),
       Suspended es index_name scroll_id pending)
  end.

(** [scroll_id = page["_scroll_id"]; hits = page["hits"]["hits"]], then
    [while hits: for hit in hits:]: the hits to visit in this round of
    the loop, none when the condition of the [while] is false (a true
    condition always leaves one to visit, see [py_iter_of_truthy]). *)
Definition page_hits (page : json) : result (json * list json) :=
  scroll_id <- getitem page "_scroll_id" ;;
  outer <- getitem page "hits" ;;
  hits <- getitem outer "hits" ;;
  if py_bool hits
  then (visited <- py_iter hits ;; Ok (scroll_id, visited))
  else Ok (scroll_id, []).

(** From the answer of the engine to the first [yield], or to the end of
    the body. *)
Definition enter_page (es : Elasticsearch Remote) (index_name : string)
    (answer : result json) (now : Z) : MessageOrStop * generator :=
  match page <- answer ;; page_hits page with
  | Raise e => (Throw e, Finished)
  | Ok (scroll_id, []) => (StopIteration, Finished)
  | Ok (scroll_id, hit :: pending) =>
      yield_hit es index_name scroll_id hit pending now
  end.

(** [next(g)] while the wall clock reads [now]. *)
Definition next (now : Z) (g : generator) (remote : Remote)
  : MessageOrStop * generator * Remote :=
  match g with
  | Created es index_name page_size =>
      let (answer, remote') :=
        search es index_name
          (JObj [("query", JObj [("match_all", JObj [])])])
          page_size "1m" remote in
      (enter_page es index_name answer now, remote')
  | Suspended es index_name scroll_id (hit :: pending) =>
      (yield_hit es index_name scroll_id hit pending now, remote)
  | Suspended es index_name scroll_id [] =>
      let (answer, remote') := scroll es scroll_id "1m" remote in
      (enter_page es index_name answer now, remote')
  | Finished => (StopIteration, Finished, remote)
  end.

Definition read (config : json) (catalog : ConfiguredAirbyteCatalog)
    (state : json) : result (option generator) :=
  es <- _get_es_client config ;;
  match streams catalog with
  | [] => Ok None
  | configured_stream :: _ =>
      let index_name := name (stream configured_stream) in
      page_size <- getitem config "page_size" ;;
      Ok (Some (_scroll_through_index es index_name page_size))
  end.

(** *** Consuming a generator

    What [for message in g] sees: the messages up to the end of the
    generator, and how it ended.  [clock k] is the reading of the wall
    clock during the [k]-th call of [next] still to come; [steps] bounds
    the number of calls, and [Unfinished] says the bound was reached
    first. *)

Inductive ending : Type :=
| Exhausted
| Failed (e : exception)
| Unfinished.

Fixpoint consume (steps : nat) (clock : nat -> Z) (g : generator)
    (remote : Remote) : list AirbyteMessage * ending * Remote :=
  match steps with
  | O => ([], Unfinished, remote)
  | S steps' =>
      match next (clock O) g remote with
      | (Yield m, g', remote') =>
          let '(ms, e, remote'') :=
            consume steps' (fun k => clock (S k)) g' remote' in
          (m :: ms, e, remote'')
      | (StopIteration, _, remote') => ([], Exhausted, remote')
      | (Throw e, _, remote') => ([], Failed e, remote')
      end
  end.

End Connector.

(** ** A reference engine

    The scroll protocol of the remote engine, as the connector relies on
    it.  A search with a scroll returns the first page of what the query
    matches and opens a cursor; every [scroll] on the cursor returns the
    next page, and an empty page once the matches are exhausted.  Every
    page comes with a new cursor id and the previous one is forgotten, as
    the protocol allows: a client has to send the id it received last.
    The engine understands the queries [match_all] and [match_none], asks
    for a page size within its result window and for a keep-alive that is
    a positive duration, and does not model the passing of time.  A cluster
    that is not reachable answers no request, and [ping] reports it as
    [False] (the library catches the transport error). *)

Record index : Type := {
  mappings : json;
  documents : list json
}.

Record cursor : Type := {
  cursor_index : string;
  cursor_size : nat;
  cursor_rest : list json
}.

Record cluster : Type := {
  reachable : bool;
  indices : dict index;
  cursors : dict cursor
}.

Definition hit_of (index_name : string) (document : json) : json :=
  JObj [("_index", JStr index_name); ("_source", document)].

Definition page_of (scroll_id : string) (index_name : string)
    (docs : list json) : json :=
  JObj [ ("_scroll_id", JStr scroll_id);
         ("hits", JObj [("hits", JArr (map (hit_of index_name) docs))]) ].

Definition fresh_scroll_id (c : cluster) : string :=
  "cursor-" ++ NilZero.string_of_uint (Nat.to_uint (List.length (cursors c))).

(** The id under which the page after the one of [scroll_id] comes. *)
Definition next_scroll_id (scroll_id : string) : string := scroll_id ++ "+".

Definition dict_remove {V : Type} (d : dict V) (k : string) : dict V :=
  filter (fun kv => negb (String.eqb k (fst kv))) d.

Definition with_cursor (c : cluster) (scroll_id : string) (k : cursor)
  : cluster :=
  {| reachable := reachable c;
     indices := indices c;
     cursors := dict_set (cursors c) scroll_id k |}.

Definition without_cursor (c : cluster) (scroll_id : string) : cluster :=
  {| reachable := reachable c;
     indices := indices c;
     cursors := dict_remove (cursors c) scroll_id |}.

(** [index.max_result_window], at its default. *)
Definition max_result_window : Z := 10000.

Inductive query : Type := MatchAll | MatchNone.

(** The query of a search body, for the two the engine understands. *)
Definition query_of (body : json) : option query :=
  match body with
  | JObj [(q, JObj [(kind, JObj [])])] =>
      if String.eqb q "query" then
        if String.eqb kind "match_all" then Some MatchAll
        else if String.eqb kind "match_none" then Some MatchNone
        else None
      else None
  | _ => None
  end.

Definition matching (q : query) (docs : list json) : list json :=
  match q with
  | MatchAll => docs
  | MatchNone => []
  end.

Definition digit_of (c : ascii) : option N :=
  let n := N_of_ascii c in
  if ((48 <=? n) && (n <=? 57))%N then Some (n - 48)%N else None.

(** The number a string starts with, and what follows it. *)
Fixpoint leading_number (s : string) (acc : option N) : option N * string :=
  match s with
  | EmptyString => (acc, s)
  | String c s' =>
      match digit_of c with
      | Some d =>
          leading_number s'
            (Some (10 * match acc with Some n => n | None => 0 end + d)%N)
      | None => (acc, s)
      end
  end.

Definition time_units : list string :=
  ["d"; "h"; "m"; "s"; "ms"; "micros"; "nanos"].

(** A keep-alive is a positive number followed by a time unit. *)
Definition keeps_alive (keep_alive : string) : bool :=
  match leading_number keep_alive None with
  | (Some n, unit) => (0 <? n)%N && list_contains time_units unit
  | (None, _) => false
  end.

Definition unreachable {A : Type} : result A :=
  Raise (ClientException "ConnectionError").

Definition reference_ping (c : cluster) : result bool := Ok (reachable c).

Definition reference_indices_get (pattern : string) (c : cluster)
  : result json :=
  if reachable c
  then Ok (JObj (map (fun kv => (fst kv, JObj [("mappings", mappings (snd kv))]))
                     (indices c)))
  else unreachable.

Definition reference_get_mapping (index_name : string) (c : cluster)
  : result json :=
  if reachable c then
    match dict_get (indices c) index_name with
    | Some i => Ok (JObj [(index_name, JObj [("mappings", mappings i)])])
    | None => Raise (ClientException "index_not_found_exception")
    end
  else unreachable.

Definition illegal_argument {A : Type} : result A :=
  Raise (ClientException "illegal_argument_exception").

Definition reference_search (index_name : string) (body size : json)
    (keep_alive : string) (c : cluster) : result json * cluster :=
  if reachable c then
    match dict_get (indices c) index_name with
    | None => (Raise (ClientException "index_not_found_exception"), c)
    | Some i =>
        match query_of body with
        | None => (Raise (ClientException "parsing_exception"), c)
        | Some q =>
            match size with
            | JNum p =>
                if (0 <? p) && (p <=? max_result_window)
                   && keeps_alive keep_alive
                then
                  let scroll_id := fresh_scroll_id c in
                  let n := Z.to_nat p in
                  let found := matching q (documents i) in
                  (Ok (page_of scroll_id index_name (firstn n found)),
                   with_cursor c scroll_id
                     {| cursor_index := index_name;
                        cursor_size := n;
                        cursor_rest := skipn n found |})
                else (illegal_argument, c)
            | _ => (illegal_argument, c)
            end
        end
    end
  else (unreachable, c).

Definition reference_scroll (scroll_id : json) (keep_alive : string)
    (c : cluster) : result json * cluster :=
  if reachable c then
    match scroll_id with
    | JStr id =>
        match dict_get (cursors c) id with
        | Some k =>
            if keeps_alive keep_alive then
              let id' := next_scroll_id id in
              (Ok (page_of id' (cursor_index k)
                     (firstn (cursor_size k) (cursor_rest k))),
               with_cursor (without_cursor c id) id'
                 {| cursor_index := cursor_index k;
                    cursor_size := cursor_size k;
                    cursor_rest := skipn (cursor_size k) (cursor_rest k) |})
            else (illegal_argument, c)
        | None => (Raise (ClientException "search_context_missing_exception"), c)
        end
    | _ => (illegal_argument, c)
    end
  else (unreachable, c).

Definition reference_client : Elasticsearch cluster :=
  {| ping := reference_ping;
     indices_get := reference_indices_get;
     indices_get_mapping := reference_get_mapping;
     search := reference_search;
     scroll := reference_scroll |}.

(** The constructor opens no connection; it accepts every host. *)
Definition reference_new (host username password : json)
  : result (Elasticsearch cluster) :=
  Ok reference_client.

(** A constructor that rejects its arguments (a host that is not a valid
    URL, for instance). *)
Definition failing_new (host username password : json)
  : result (Elasticsearch cluster) :=
  Raise (ClientException "ImproperlyConfigured").

(** *** Sample data *)

Definition sample_config : json :=
  JObj [ ("host", JStr "localhost:9200");
         ("username", JStr "admin");
         ("password", JStr "admin");
         ("page_size", JNum 2) ].

Definition text_field : json := JObj [("type", JStr "text")].
Definition long_field : json := JObj [("type", JStr "long")].
Definition keyword_field : json := JObj [("type", JStr "keyword")].
Definition nested_field : json :=
  JObj [ ("type", JStr "nested");
         ("properties", JObj [("city", text_field)]) ].

Definition properties_of (fields : dict json) : json :=
  JObj [("properties", JObj fields)].

Definition order (id : Z) : json :=
  JObj [("id", JNum id); ("customer", JStr "acme")].

Definition orders : index :=
  {| mappings := properties_of
       [("id", long_field); ("address", nested_field); ("customer", text_field)];
     documents := [order 1; order 2; order 3] |}.

Definition sample_cluster : cluster :=
  {| reachable := true;
     indices := [("orders", orders)];
     cursors := [] |}.

Definition stream_of (index_name : string) : ConfiguredAirbyteStream :=
  {| stream := {| name := index_name;
                  json_schema := JObj [];
                  supported_sync_modes := ["full_refresh"] |} |}.

Definition sample_catalog : ConfiguredAirbyteCatalog :=
  {| streams := [stream_of "orders"; stream_of "customers"] |}.

(** An index whose mapping has a field of a type the table lacks. *)
Definition audit : index :=
  {| mappings := properties_of
       [("id", long_field); ("actor", keyword_field); ("at", text_field)];
     documents := [] |}.

Definition audited_cluster : cluster :=
  {| reachable := true;
     indices := [("orders", orders); ("audit", audit)];
     cursors := [] |}.

(** A cluster that also reports a system index, whose mapping has a field
    of a type the table lacks. *)
Definition kibana : index :=
  {| mappings := properties_of [("config", keyword_field)];
     documents := [] |}.

Definition cluster_with_kibana : cluster :=
  {| reachable := true;
     indices := [(".kibana_1", kibana); ("orders", orders)];
     cursors := [] |}.

(** An index created without mapping and without documents: the engine
    reports its mappings as the empty object. *)
Definition drafts : index :=
  {| mappings := JObj [];
     documents := [] |}.

Definition cluster_with_drafts : cluster :=
  {| reachable := true;
     indices := [("drafts", drafts); ("audit", audit)];
     cursors := [] |}.

Definition offline_cluster : cluster :=
  {| reachable := false;
     indices := [("orders", orders)];
     cursors := [] |}.

(** Clocks, in microseconds since the epoch.  [read] is called at
    [call_time]; the consumer calls [next] 0.2 s later and then every
    0.3 s. *)
Definition call_time : Z := 1700000000500000.

Definition sample_clock (k : nat) : Z :=
  1700000000700000 + Z.of_nat k * 300000.

Definition orders_generator : @generator cluster :=
  _scroll_through_index reference_client "orders" (JNum 2).

(** What discovery makes of [orders]. *)
Definition orders_stream : AirbyteStream :=
  {| name := "orders";
     json_schema :=
       JObj [ ("$schema", JStr "http://json-schema.org/draft-07/schema#");
              ("type", JStr "object");
              ("properties",
               JObj [ ("id", JObj [("type", JStr "integer")]);
                      ("customer", JObj [("type", JStr "string")]) ]) ];
     supported_sync_modes := ["full_refresh"] |}.

Definition orders_run : list AirbyteMessage * ending * cluster :=
  consume 4 sample_clock orders_generator sample_cluster.

(** ** Vocabulary of the statements *)

(** A value the loop stores: [{"type": g}] with [g] a JSON-schema type. *)
Definition json_schema_types : list string :=
  ["boolean"; "string"; "integer"; "number"].

Definition typed_property (v : json) : Prop :=
  exists g, v = JObj [("type", JStr g)] /\ In g json_schema_types.

(** The schema [discover] builds for a stream: flat, every property
    typed by one of the four JSON-schema types. *)
Definition flat_schema (s : AirbyteStream) : Prop :=
  exists properties,
    json_schema s =
      JObj [ ("$schema", JStr "http://json-schema.org/draft-07/schema#");
             ("type", JStr "object");
             ("properties", JObj properties) ] /\
    forall f v, In (f, v) properties -> typed_property v.

(** What [consume] collected, and how the generator ended. *)
Definition messages {Remote : Type}
    (run : list AirbyteMessage * ending * Remote) : list AirbyteMessage :=
  fst (fst run).

Definition ended {Remote : Type}
    (run : list AirbyteMessage * ending * Remote) : ending :=
  snd (fst run).

(** One record per document, each stamped with the clock of the [next]
    that produced it. *)
Fixpoint records_of (index_name : string) (clock : nat -> Z)
    (docs : list json) : list AirbyteMessage :=
  match docs with
  | [] => []
  | d :: ds =>
      record_message index_name d (clock O)
      :: records_of index_name (fun k => clock (S k)) ds
  end.

(** A message without its timestamp. *)
Definition payload (m : AirbyteMessage)
  : MessageType * option (string * json) :=
  (type m, option_map (fun r => (record_stream r, data r)) (record m)).

(** The index a generator reads, when it is not finished. *)
Definition yields_for {Remote : Type} (index_name : string)
    (g : @generator Remote) : Prop :=
  match g with
  | Created _ i _ | Suspended _ i _ _ => i = index_name
  | Finished => True
  end.

(** The first of the keys [_get_es_client] reads that [d] lacks. *)
Definition first_missing_key (d : dict json) : option string :=
  find (fun k => negb (dict_contains d k)) ["host"; "username"; "password"].

(** [key not in system_indices], on a name. *)
Definition listed (index_name : string) : bool :=
  negb (list_contains system_indices index_name).

(** The loop skips a field when the test of its first line is true. *)
Definition is_nested (property_attributes : json) : bool :=
  match py_in "properties" property_attributes with
  | Ok true => true
  | _ => false
  end.

(** A field the loop can convert: its attributes are a dict that has a
    [properties] key, or one whose [type] is a string of the table. *)
Definition convertible (property_attributes : json) : Prop :=
  exists a,
    property_attributes = JObj a /\
    (dict_contains a "properties" = true \/
     exists declared g,
       dict_get a "type" = Some (JStr declared) /\
       dict_get es_to_json_type_mapping declared = Some g).

(** A configuration without password, and one without page size. *)
Definition config_without_password : dict json :=
  [ ("host", JStr "localhost:9200"); ("username", JStr "admin") ].

Definition config_without_page_size : json :=
  JObj [ ("host", JStr "localhost:9200");
         ("username", JStr "admin");
         ("password", JStr "admin") ].

(** A mapping with a field that declares neither a type nor properties. *)
Definition notes : index :=
  {| mappings := properties_of
       [("id", long_field); ("body", JObj [("enabled", JBool false)])];
     documents := [] |}.

Definition cluster_with_notes : cluster :=
  {| reachable := true;
     indices := [("orders", orders); ("notes", notes)];
     cursors := [] |}.

(** *** The scroll protocol

    What the connector relies on from the engine behind a client, for one
    page size.  [holds remote index_name docs] says that the index has the
    documents [docs], in the order the engine returns them;
    [cursor_at remote scroll_id docs] that the cursor [scroll_id] is open
    in [remote] with [docs] still to return.  A search for everything with
    a scroll of one minute opens a cursor, a scroll of one minute on an
    open cursor moves it; both answer with a page that carries the cursor
    id to use next, which need not be the one that was sent. *)

Definition match_all_query : json :=
  JObj [("query", JObj [("match_all", JObj [])])].

(** [page] carries [scroll_id] and one hit per document of [batch]. *)
Definition is_page (page scroll_id : json) (batch : list (dict json))
  : Prop :=
  getitem page "_scroll_id" = Ok scroll_id /\
  exists hits,
    (outer <- getitem page "hits" ;; getitem outer "hits") = Ok (JArr hits) /\
    Forall2 (fun hit d => getitem hit "_source" = Ok (JObj d)) hits batch.

(** [batch] is the next page of [docs] and [rest] what follows: at most
    [size] documents, and at least one as long as some are left. *)
Definition next_batch (size : Z) (docs batch rest : list (dict json))
  : Prop :=
  docs = (batch ++ rest)%list /\
  (docs <> [] -> batch <> []) /\
  (List.length batch <= Z.to_nat size)%nat.

Record scroll_protocol {Remote : Type} (es : Elasticsearch Remote)
    (size : Z)
    (holds : Remote -> string -> list (dict json) -> Prop)
    (cursor_at : Remote -> json -> list (dict json) -> Prop) : Prop := {
  search_opens_a_cursor :
    forall remote index_name docs,
      holds remote index_name docs ->
      exists page scroll_id batch rest remote',
        search es index_name match_all_query (JNum size) "1m" remote =
          (Ok page, remote') /\
        is_page page scroll_id batch /\
        next_batch size docs batch rest /\
        cursor_at remote' scroll_id rest;
  scroll_moves_the_cursor :
    forall remote scroll_id docs,
      cursor_at remote scroll_id docs ->
      exists page scroll_id' batch rest remote',
        scroll es scroll_id "1m" remote = (Ok page, remote') /\
        is_page page scroll_id' batch /\
        next_batch size docs batch rest /\
        cursor_at remote' scroll_id' rest
}.

Arguments search_opens_a_cursor {Remote es size holds cursor_at} _ _ _ _ _.
Arguments scroll_moves_the_cursor {Remote es size holds cursor_at} _ _ _ _ _.

(** The two relations, for the reference engine. *)
Definition reference_holds (c : cluster) (index_name : string)
    (docs : list (dict json)) : Prop :=
  reachable c = true /\
  exists i,
    dict_get (indices c) index_name = Some i /\
    documents i = map JObj docs.

Definition reference_cursor_at (size : Z) (c : cluster) (scroll_id : json)
    (docs : list (dict json)) : Prop :=
  reachable c = true /\
  exists id k,
    scroll_id = JStr id /\
    dict_get (cursors c) id = Some k /\
    cursor_size k = Z.to_nat size /\
    cursor_rest k = map JObj docs.

(** The source fields of the sample orders. *)
Definition order_fields (id : Z) : dict json :=
  [("id", JNum id); ("customer", JStr "acme")].

(** * Properties *)

(** ** Results and dictionaries *)

Lemma bind_Ok {A B : Type} (c : result A) (k : A -> result B) (b : B) :
  bind c k = Ok b -> exists a, c = Ok a /\ k a = Ok b.
Proof.
  destruct c as [a | e]; simpl; intros H.
  - exists a. split; [reflexivity | exact H].
  - discriminate H.
Qed.

Ltac bind_inv H :=
  let a := fresh "a" in
  let Ha := fresh "Ha" in
  apply bind_Ok in H; destruct H as (a & Ha & H).

Lemma dict_get_set_same {V : Type} (d : dict V) (k : string) (v : V) :
  dict_get (dict_set d k v) k = Some v.
Proof.
  induction d as [| [k' v'] d IH]; simpl.
  - rewrite String.eqb_refl. reflexivity.
  - destruct (String.eqb k k') eqn:E; simpl; rewrite E.
    + reflexivity.
    + exact IH.
Qed.

Lemma dict_get_set_other {V : Type} (d : dict V) (k k' : string) (v : V) :
  k' <> k -> dict_get (dict_set d k v) k' = dict_get d k'.
Proof.
  intros Hne. induction d as [| [k0 v0] d IH]; simpl.
  - apply String.eqb_neq in Hne. rewrite Hne. reflexivity.
  - destruct (String.eqb k k0) eqn:E; simpl.
    + apply String.eqb_eq in E. subst k0.
      apply String.eqb_neq in Hne. rewrite Hne. reflexivity.
    + rewrite IH. reflexivity.
Qed.

Lemma dict_set_keys {V : Type} (d : dict V) (k k' : string) (v : V) :
  In k' (dict_keys (dict_set d k v)) -> k' = k \/ In k' (dict_keys d).
Proof.
  induction d as [| [k0 v0] d IH]; simpl.
  - intros [H | []]. left. symmetry. exact H.
  - destruct (String.eqb k k0) eqn:E; simpl.
    + intros H. right. exact H.
    + intros [H | H]; [right; left; exact H |].
      destruct (IH H) as [H' | H']; [left | right; right]; exact H'.
Qed.

Lemma dict_set_values {V : Type} (d : dict V) (k k' : string) (v v' : V) :
  In (k', v') (dict_set d k v) -> v' = v \/ In (k', v') d.
Proof.
  induction d as [| [k0 v0] d IH]; simpl.
  - intros [H | []]. left. congruence.
  - destruct (String.eqb k k0) eqn:E; simpl.
    + intros [H | H]; [left; congruence | right; right; exact H].
    + intros [H | H]; [right; left; exact H |].
      destruct (IH H) as [H' | H']; [left | right; right]; exact H'.
Qed.

Lemma dict_get_None {V : Type} (d : dict V) (k : string) :
  ~ In k (dict_keys d) -> dict_get d k = None.
Proof.
  induction d as [| [k0 v0] d IH]; simpl; intros H.
  - reflexivity.
  - destruct (String.eqb k k0) eqn:E.
    + apply String.eqb_eq in E. exfalso. apply H. left. symmetry. exact E.
    + apply IH. intros Hin. apply H. right. exact Hin.
Qed.

Lemma dict_of_items_keys {V : Type} (its : list (string * V)) (k : string) :
  In k (dict_keys (dict_of_items its)) -> In k (map fst its).
Proof.
  unfold dict_of_items.
  assert (G : forall acc : dict V,
             In k (dict_keys (fold_left
                                (fun d kv => dict_set d (fst kv) (snd kv))
                                its acc)) ->
             In k (dict_keys acc) \/ In k (map fst its)).
  { induction its as [| [k0 v0] its IH]; simpl; intros acc H.
    - left. exact H.
    - destruct (IH _ H) as [H' | H'].
      + destruct (dict_set_keys _ _ _ _ H') as [-> | H''].
        * right. left. reflexivity.
        * left. exact H''.
      + right. right. exact H'. }
  intros H. destruct (G [] H) as [[] | H']. exact H'.
Qed.

(** ** Discovery *)

Section Discovery.

Context {Remote : Type}.
Variable new_Elasticsearch :
  json -> json -> json -> result (Elasticsearch Remote).

Lemma _get_indices_not_system (es : Elasticsearch Remote) (remote : Remote)
    (found : dict json) (index_name : string) :
  _get_indices es remote = Ok found ->
  In index_name (dict_keys found) ->
  list_contains system_indices index_name = false.
Proof.
  unfold _get_indices. intros H Hin.
  bind_inv H. bind_inv H. injection H as <-.
  apply dict_of_items_keys in Hin.
  apply in_map_iff in Hin. destruct Hin as ([k v] & <- & Hkv).
  apply filter_In in Hkv. destruct Hkv as [_ Hkv].
  unfold not_system_index in Hkv. simpl in *.
  apply Bool.negb_true_iff in Hkv. exact Hkv.
Qed.

Lemma discover_loop_names (es : Elasticsearch Remote) (remote : Remote)
    (index_names : list string) :
  forall acc out,
    discover_loop es remote index_names acc = Ok out ->
    map name out = (map name acc ++ index_names)%list.
Proof.
  induction index_names as [| i rest IH]; simpl; intros acc out H.
  - injection H as <-. rewrite app_nil_r. reflexivity.
  - bind_inv H. apply IH in H. rewrite H, map_app. simpl.
    rewrite <- app_assoc. reflexivity.
Qed.

(** C5.  Whatever indices the engine reports, no stream of a discovered
    catalog is named [.kibana_1] or [.opendistro_security]. *)
Theorem C5_discover_never_lists_system_indices (config : json)
    (remote : Remote) (catalog : AirbyteCatalog) (s : AirbyteStream) :
  discover new_Elasticsearch config remote = Ok catalog ->
  In s (catalog_streams catalog) ->
  name s <> ".kibana_1" /\ name s <> ".opendistro_security".
Proof.
  unfold discover. intros H Hin.
  bind_inv H. bind_inv H. bind_inv H. injection H as <-. simpl in Hin.
  apply discover_loop_names in Ha1. simpl in Ha1.
  assert (Hname : In (name s) (dict_keys a0)).
  { rewrite <- Ha1. apply in_map. exact Hin. }
  pose proof (_get_indices_not_system _ _ _ _ Ha0 Hname) as Hsys.
  split; intros E; rewrite E in Hsys; discriminate Hsys.
Qed.

End Discovery.

(** ** Schema inference: the loop over the fields of a mapping *)

Lemma mapping_values (t g : string) :
  dict_get es_to_json_type_mapping t = Some g -> In g json_schema_types.
Proof.
  unfold es_to_json_type_mapping, json_schema_types. simpl.
  repeat (destruct (String.eqb t _);
          [ intros H; injection H as <-; simpl; tauto | ]).
  discriminate.
Qed.

Lemma json_property_typed (attributes v : json) :
  json_property attributes = Ok v -> typed_property v.
Proof.
  unfold json_property. intros H. bind_inv H. bind_inv H.
  destruct a0 as [| b | n | s]; cbn [mapping_get] in H; try discriminate H.
  destruct (dict_get es_to_json_type_mapping s) as [g |] eqn:E;
    [| discriminate H].
  injection H as <-. exists g. split; [reflexivity |].
  exact (mapping_values _ _ E).
Qed.

Lemma json_property_of_type (a : dict json) (declared : string) :
  dict_get a "type" = Some (JStr declared) ->
  json_property (JObj a) =
    match dict_get es_to_json_type_mapping declared with
    | Some g => Ok (JObj [("type", JStr g)])
    | None =>
        Raise (UnsupportedDataTypeException
                 ("Unsupported data type: " ++ declared))
    end.
Proof.
  intros H. unfold json_property. simpl. rewrite H. reflexivity.
Qed.

Lemma json_properties_loop_app (l1 l2 : dict json) :
  forall acc,
    json_properties_loop (l1 ++ l2)%list acc =
    (acc' <- json_properties_loop l1 acc ;; json_properties_loop l2 acc').
Proof.
  induction l1 as [| [f a] l1 IH]; intros acc; simpl.
  - reflexivity.
  - destruct (py_in "properties" a) as [[|] | e]; simpl.
    + apply IH.
    + destruct (json_property a) as [v | e]; simpl; [apply IH | reflexivity].
    + reflexivity.
Qed.

Lemma json_properties_loop_keys (its : dict json) (k : string) :
  forall acc props,
    json_properties_loop its acc = Ok props ->
    In k (dict_keys props) ->
    In k (dict_keys acc) \/ In k (dict_keys its).
Proof.
  induction its as [| [f a] its IH]; simpl; intros acc props H Hin.
  - injection H as <-. left. exact Hin.
  - bind_inv H. destruct a0.
    + destruct (IH _ _ H Hin) as [H' | H']; [left | right; right]; exact H'.
    + bind_inv H. destruct (IH _ _ H Hin) as [H' | H'].
      * destruct (dict_set_keys _ _ _ _ H') as [-> | H''].
        -- right. left. reflexivity.
        -- left. exact H''.
      * right. right. exact H'.
Qed.

Lemma json_properties_loop_values (its : dict json) :
  forall acc props,
    json_properties_loop its acc = Ok props ->
    (forall f v, In (f, v) acc -> typed_property v) ->
    forall f v, In (f, v) props -> typed_property v.
Proof.
  induction its as [| [f0 a] its IH]; simpl; intros acc props H Hacc f v Hin.
  - injection H as <-. exact (Hacc f v Hin).
  - bind_inv H. destruct a0.
    + exact (IH _ _ H Hacc f v Hin).
    + bind_inv H. refine (IH _ _ H _ f v Hin).
      intros f1 v1 H1. destruct (dict_set_values _ _ _ _ _ H1) as [-> | H2].
      * exact (json_property_typed _ _ Ha0).
      * exact (Hacc _ _ H2).
Qed.

Lemma json_properties_loop_untouched (its : dict json) (k : string) :
  ~ In k (dict_keys its) ->
  forall acc props,
    json_properties_loop its acc = Ok props ->
    dict_get props k = dict_get acc k.
Proof.
  induction its as [| [f a] its IH]; simpl; intros Hk acc props H.
  - injection H as <-. reflexivity.
  - assert (Hf : k <> f) by (intros ->; apply Hk; left; reflexivity).
    assert (Hits : ~ In k (dict_keys its)) by (intros Hin; apply Hk; right; exact Hin).
    bind_inv H. destruct a0.
    + exact (IH Hits _ _ H).
    + bind_inv H. rewrite (IH Hits _ _ H).
      apply dict_get_set_other. exact Hf.
Qed.

Lemma json_properties_loop_lookup (its : dict json) (f : string)
    (attributes v : json) :
  NoDup (dict_keys its) ->
  In (f, attributes) its ->
  py_in "properties" attributes = Ok false ->
  json_property attributes = Ok v ->
  forall acc props,
    json_properties_loop its acc = Ok props ->
    dict_get props f = Some v.
Proof.
  intros Hnd Hin Hflat Hv.
  induction its as [| [f0 a0] its IH]; simpl in *; [contradiction |].
  intros acc props H.
  apply NoDup_cons_iff in Hnd. destruct Hnd as [Hfresh Hnd].
  destruct Hin as [Heq | Hin].
  - injection Heq as -> ->. rewrite Hflat, Hv in H. simpl in H.
    rewrite (json_properties_loop_untouched _ _ Hfresh _ _ H).
    apply dict_get_set_same.
  - bind_inv H. destruct a.
    + exact (IH Hnd Hin _ _ H).
    + bind_inv H. exact (IH Hnd Hin _ _ H).
Qed.

Section Schemas.

Context {Remote : Type}.
Variable es : Elasticsearch Remote.
Variable remote : Remote.

Lemma _get_index_json_properties_typed (index_name : string)
    (properties : dict json) :
  _get_index_json_properties es index_name remote = Ok properties ->
  forall f v, In (f, v) properties -> typed_property v.
Proof.
  unfold _get_index_json_properties. intros H.
  bind_inv H. bind_inv H.
  apply (json_properties_loop_values _ _ _ H). intros f v [].
Qed.

Lemma discover_loop_flat (index_names : list string) :
  forall acc out,
    discover_loop es remote index_names acc = Ok out ->
    Forall flat_schema acc -> Forall flat_schema out.
Proof.
  induction index_names as [| i rest IH]; simpl; intros acc out H Hacc.
  - injection H as <-. exact Hacc.
  - bind_inv H. apply (IH _ _ H).
    apply Forall_app. split; [exact Hacc |].
    constructor; [| constructor].
    exists a. split; [reflexivity |].
    exact (_get_index_json_properties_typed _ _ Ha).
Qed.

Lemma discover_loop_first_failure (earlier later : list string)
    (index_name : string) (e : exception) :
  _get_index_json_properties es index_name remote = Raise e ->
  (forall i, In i earlier ->
             exists p, _get_index_json_properties es i remote = Ok p) ->
  forall acc,
    discover_loop es remote (earlier ++ index_name :: later)%list acc =
    Raise e.
Proof.
  intros Hbad. induction earlier as [| i earlier IH]; simpl; intros Hok acc.
  - rewrite Hbad. reflexivity.
  - destruct (Hok i (or_introl eq_refl)) as [p Hp]. rewrite Hp. simpl.
    apply IH. intros j Hj. apply Hok. right. exact Hj.
Qed.

Lemma discover_loop_failure (earlier later : list string)
    (index_name : string) (e : exception) :
  _get_index_json_properties es index_name remote = Raise e ->
  forall acc,
    exists e',
      discover_loop es remote (earlier ++ index_name :: later)%list acc =
      Raise e'.
Proof.
  intros Hbad. induction earlier as [| i earlier IH]; simpl; intros acc.
  - rewrite Hbad. exists e. reflexivity.
  - destruct (_get_index_json_properties es i remote) as [p | e0]; simpl.
    + apply IH.
    + exists e0. reflexivity.
Qed.

(** A field that is not skipped and declares a type the table lacks
    stops the loop, at the latest when the loop reaches it. *)
Lemma json_properties_loop_unsupported (before after a : dict json)
    (f declared : string) :
  dict_contains a "properties" = false ->
  dict_get a "type" = Some (JStr declared) ->
  dict_get es_to_json_type_mapping declared = None ->
  forall acc,
    (exists e,
       json_properties_loop (before ++ (f, JObj a) :: after)%list acc =
       Raise e) /\
    (forall acc',
       json_properties_loop before acc = Ok acc' ->
       json_properties_loop (before ++ (f, JObj a) :: after)%list acc =
       Raise (UnsupportedDataTypeException
                ("Unsupported data type: " ++ declared))).
Proof.
  intros Hflat Htype Hnone acc.
  rewrite json_properties_loop_app.
  assert (Hstop : forall acc',
             json_properties_loop ((f, JObj a) :: after) acc' =
             Raise (UnsupportedDataTypeException
                      ("Unsupported data type: " ++ declared))).
  { intros acc'. cbn [json_properties_loop py_in bind]. rewrite Hflat.
    rewrite (json_property_of_type _ _ Htype), Hnone. reflexivity. }
  split.
  - destruct (json_properties_loop before acc) as [acc' | e]; simpl.
    + eexists. apply Hstop.
    + exists e. reflexivity.
  - intros acc' Hacc'. rewrite Hacc'. simpl. apply Hstop.
Qed.

(** C7.  A field whose attributes contain a [properties] key is left out
    of the schema without an error: the properties of the index are those
    of the same mapping without the field (the same result, or the same
    exception raised by another field), and no property carries the
    field's name. *)
Theorem C7_nested_field_is_omitted (index_name : string)
    (before after : dict json) (property_name : string)
    (property_attributes : json) :
  es_properties es index_name remote =
    Ok (JObj (before ++ (property_name, property_attributes) :: after)%list) ->
  py_in "properties" property_attributes = Ok true ->
  _get_index_json_properties es index_name remote =
    json_properties_loop (before ++ after)%list [] /\
  (~ In property_name (dict_keys (before ++ after)%list) ->
   forall properties,
     _get_index_json_properties es index_name remote = Ok properties ->
     dict_get properties property_name = None).
Proof.
  intros Hmap Hnested.
  assert (Heq : _get_index_json_properties es index_name remote =
                json_properties_loop (before ++ after)%list []).
  { unfold _get_index_json_properties. rewrite Hmap. simpl.
    rewrite !json_properties_loop_app.
    destruct (json_properties_loop before []) as [acc |]; simpl;
      [| reflexivity].
    rewrite Hnested. reflexivity. }
  split; [exact Heq |].
  intros Hfresh properties H. rewrite Heq in H.
  apply dict_get_None. intros Hin.
  destruct (json_properties_loop_keys _ _ _ _ H Hin) as [[] | Hin'].
  exact (Hfresh Hin').
Qed.

End Schemas.

Section Operations.

Context {Remote : Type}.
Variable new_Elasticsearch :
  json -> json -> json -> result (Elasticsearch Remote).

(** C6.  A field that is not skipped and declares a type of the table
    gets the table's JSON-schema type in the properties of its index;
    and in every catalog that [discover] returns, every schema is flat
    with each property typed boolean, string, integer or number. *)
Theorem C6_fields_get_the_table_type (config : json) (remote : Remote) :
  (forall (es : Elasticsearch Remote) index_name fields properties
          f a declared g,
      es_properties es index_name remote = Ok (JObj fields) ->
      NoDup (dict_keys fields) ->
      In (f, JObj a) fields ->
      dict_contains a "properties" = false ->
      dict_get a "type" = Some (JStr declared) ->
      dict_get es_to_json_type_mapping declared = Some g ->
      _get_index_json_properties es index_name remote = Ok properties ->
      dict_get properties f = Some (JObj [("type", JStr g)])) /\
  (forall catalog s,
      discover new_Elasticsearch config remote = Ok catalog ->
      In s (catalog_streams catalog) ->
      flat_schema s).
Proof.
  split.
  - intros es index_name fields properties f a declared g
           Hmap Hnd Hin Hflat Htype Hg H.
    unfold _get_index_json_properties in H. rewrite Hmap in H.
    simpl in H.
    refine (json_properties_loop_lookup _ _ _ _ Hnd Hin _ _ _ _ H).
    + simpl. rewrite Hflat. reflexivity.
    + rewrite (json_property_of_type _ _ Htype), Hg. reflexivity.
  - intros catalog s H Hin. unfold discover in H.
    bind_inv H. bind_inv H. bind_inv H. injection H as <-.
    simpl in Hin.
    pose proof (discover_loop_flat _ _ _ _ _ Ha1 (Forall_nil _)) as Hall.
    rewrite Forall_forall in Hall. exact (Hall s Hin).
Qed.

(** C2, amended.  Take an index that discovery lists (reported by the
    engine and not a system index) whose mapping has a field without a
    [properties] key that declares a type the table lacks.  Then
    [discover] returns no catalog: it raises.  The exception is the first
    failure in iteration order: when the indices listed before it and the
    fields before it in its mapping are converted without error, it is
    [UnsupportedDataTypeException] and its message names the type. *)
Theorem C2_unsupported_type_aborts_discovery (config : json)
    (remote : Remote) (es : Elasticsearch Remote) (found : dict json)
    (earlier later : list string) (index_name : string)
    (before after a : dict json) (f declared : string) :
  _get_es_client new_Elasticsearch config = Ok es ->
  _get_indices es remote = Ok found ->
  dict_keys found = (earlier ++ index_name :: later)%list ->
  es_properties es index_name remote =
    Ok (JObj (before ++ (f, JObj a) :: after)%list) ->
  dict_contains a "properties" = false ->
  dict_get a "type" = Some (JStr declared) ->
  dict_get es_to_json_type_mapping declared = None ->
  (exists e, discover new_Elasticsearch config remote = Raise e) /\
  ((forall i, In i earlier ->
              exists p, _get_index_json_properties es i remote = Ok p) ->
   (exists acc, json_properties_loop before [] = Ok acc) ->
   discover new_Elasticsearch config remote =
     Raise (UnsupportedDataTypeException
              ("Unsupported data type: " ++ declared))).
Proof.
  intros Hes Hfound Hkeys Hmap Hflat Htype Hnone.
  destruct (json_properties_loop_unsupported before after a f declared
              Hflat Htype Hnone []) as [[e He] Hfirst].
  assert (Hprops : _get_index_json_properties es index_name remote =
                   json_properties_loop
                     (before ++ (f, JObj a) :: after)%list []).
  { unfold _get_index_json_properties. rewrite Hmap. reflexivity. }
  unfold discover. rewrite Hes. cbn [bind]. rewrite Hfound. cbn [bind].
  rewrite Hkeys. split.
  - rewrite He in Hprops.
    destruct (discover_loop_failure es remote earlier later _ _ Hprops [])
      as [e' He'].
    exists e'. rewrite He'. reflexivity.
  - intros Hearlier [acc Hacc].
    rewrite (Hfirst _ Hacc) in Hprops.
    rewrite (discover_loop_first_failure es remote earlier later _ _
               Hprops Hearlier []).
    reflexivity.
Qed.

(** C3, amended.  [check] answers from the ping alone: SUCCEEDED when
    the ping returns true, FAILED with the message "Connection failed"
    when it returns false.  It has no handler: an exception raised by the
    ping, or by the constructor of the client, leaves [check]. *)
Theorem C3_check_reports_the_ping (config : json) (remote : Remote) :
  (forall es,
      _get_es_client new_Elasticsearch config = Ok es ->
      ping es remote = Ok true ->
      check new_Elasticsearch config remote =
        Ok {| status := SUCCEEDED; message := None |}) /\
  (forall es,
      _get_es_client new_Elasticsearch config = Ok es ->
      ping es remote = Ok false ->
      check new_Elasticsearch config remote =
        Ok {| status := FAILED; message := Some "Connection failed" |}) /\
  (forall es e,
      _get_es_client new_Elasticsearch config = Ok es ->
      ping es remote = Raise e ->
      check new_Elasticsearch config remote = Raise e) /\
  (forall host username password e,
      getitem config "host" = Ok host ->
      getitem config "username" = Ok username ->
      getitem config "password" = Ok password ->
      new_Elasticsearch host username password = Raise e ->
      check new_Elasticsearch config remote = Raise e).
Proof.
  unfold check. repeat split.
  - intros es Hes Hping. rewrite Hes. simpl. rewrite Hping. reflexivity.
  - intros es Hes Hping. rewrite Hes. simpl. rewrite Hping. reflexivity.
  - intros es e Hes Hping. rewrite Hes. simpl. rewrite Hping. reflexivity.
  - intros host username password e Hh Hu Hp Hnew.
    unfold _get_es_client. rewrite Hh, Hu, Hp. simpl. rewrite Hnew.
    reflexivity.
Qed.

End Operations.

(** ** Reading: the generator over any client *)

Lemma py_iter_of_truthy (j : json) :
  py_bool j = true -> py_iter j <> Ok [].
Proof.
  destruct j as [| b | n | s | l | d]; simpl; try discriminate.
  - destruct s; [discriminate | intros _; discriminate].
  - destruct l; [discriminate | intros _; discriminate].
  - destruct d; [discriminate | intros _; discriminate].
Qed.

Lemma timestamp_ms_whole_seconds (now : Z) :
  timestamp_ms now mod 1000 = 0.
Proof.
  unfold timestamp_ms. apply Z.mod_mul. discriminate.
Qed.

Lemma timestamp_ms_truncates (now : Z) :
  0 <= now ->
  timestamp_ms now * 1000 <= now < timestamp_ms now * 1000 + 1000000.
Proof.
  intros Hnow. unfold timestamp_ms.
  rewrite Z.quot_div_nonneg by lia.
  pose proof (Z.div_mod now 1000000 ltac:(discriminate)) as Hdm.
  pose proof (Z.mod_pos_bound now 1000000 ltac:(reflexivity)) as Hb.
  lia.
Qed.

Lemma timestamp_ms_within_a_second (now : Z) :
  now - 1000000 < timestamp_ms now * 1000 < now + 1000000.
Proof.
  unfold timestamp_ms.
  pose proof (Z.quot_rem now 1000000 ltac:(discriminate)) as Hqr.
  pose proof (Z.rem_bound_abs now 1000000 ltac:(discriminate)) as Hb.
  change (Z.abs 1000000) with 1000000 in Hb.
  lia.
Qed.

Lemma timestamp_ms_monotone (t1 t2 : Z) :
  t1 <= t2 -> timestamp_ms t1 <= timestamp_ms t2.
Proof.
  intros H. unfold timestamp_ms.
  apply Z.mul_le_mono_nonneg_r; [lia |].
  apply Z.quot_le_mono; lia.
Qed.

Section Reading.

Context {Remote : Type}.

Lemma yield_hit_Yield (es : Elasticsearch Remote) (index_name : string)
    (scroll_id hit : json) (pending : list json) (now : Z)
    (m : AirbyteMessage) (g : generator) :
  yield_hit es index_name scroll_id hit pending now = (Yield m, g) ->
  (exists source, m = record_message index_name source now) /\
  g = Suspended es index_name scroll_id pending.
Proof.
  unfold yield_hit.
  destruct (source <- getitem hit "_source" ;; validate_data source)
    as [body | e]; intros H; [| discriminate H].
  injection H as <- <-. split; [exists body |]; reflexivity.
Qed.

Lemma enter_page_Yield (es : Elasticsearch Remote) (index_name : string)
    (answer : result json) (now : Z) (m : AirbyteMessage) (g : generator) :
  enter_page es index_name answer now = (Yield m, g) ->
  (exists source, m = record_message index_name source now) /\
  yields_for index_name g.
Proof.
  unfold enter_page.
  destruct (page <- answer ;; page_hits page)
    as [[scroll_id [| hit pending]] | e]; intros H; try discriminate H.
  apply yield_hit_Yield in H. destruct H as [Hm ->].
  split; [exact Hm | reflexivity].
Qed.

Lemma next_Yield (now : Z) (g g' : generator) (remote remote' : Remote)
    (m : AirbyteMessage) (index_name : string) :
  next now g remote = (Yield m, g', remote') ->
  yields_for index_name g ->
  (exists source, m = record_message index_name source now) /\
  yields_for index_name g'.
Proof.
  destruct g as [es i size | es i scroll_id [| hit pending] |]; simpl;
    intros H Hi.
  - destruct (search es i _ size "1m" remote) as [answer r].
    injection H as H _. subst i. exact (enter_page_Yield _ _ _ _ _ _ H).
  - destruct (scroll es scroll_id "1m" remote) as [answer r].
    injection H as H _. subst i. exact (enter_page_Yield _ _ _ _ _ _ H).
  - injection H as H _. subst i.
    apply yield_hit_Yield in H. destruct H as [Hm ->].
    split; [exact Hm | reflexivity].
  - discriminate H.
Qed.

Lemma consume_step (steps : nat) (clock : nat -> Z) (g : generator)
    (remote : Remote) :
  consume (S steps) clock g remote =
  match next (clock O) g remote with
  | (Yield m, g', remote') =>
      let run := consume steps (fun k => clock (S k)) g' remote' in
      (m :: messages run, ended run, snd run)
  | (StopIteration, _, remote') => ([], Exhausted, remote')
  | (Throw e, _, remote') => ([], Failed e, remote')
  end.
Proof.
  simpl. destruct (next (clock O) g remote) as [[[m | | e] g'] remote'];
    try reflexivity.
  destruct (consume steps (fun k => clock (S k)) g' remote')
    as [[ms e] remote'']. reflexivity.
Qed.

Lemma consume_nth (steps : nat) :
  forall (clock : nat -> Z) (g : generator) (remote : Remote)
         (index_name : string) (k : nat) (m : AirbyteMessage),
    yields_for index_name g ->
    nth_error (messages (consume steps clock g remote)) k = Some m ->
    exists source, m = record_message index_name source (clock k).
Proof.
  induction steps as [| steps IH]; intros clock g remote index_name k m Hi H.
  - destruct k; discriminate H.
  - rewrite consume_step in H.
    destruct (next (clock O) g remote) as [[[m0 | | e] g'] remote'] eqn:E;
      try (destruct k; discriminate H).
    destruct (next_Yield _ _ _ _ _ _ _ E Hi) as [Hm0 Hi'].
    destruct k as [| k]; simpl in H.
    + injection H as <-. exact Hm0.
    + exact (IH _ _ _ _ _ _ Hi' H).
Qed.

Lemma every_generator_has_an_index (g : @generator Remote) :
  exists index_name, yields_for index_name g.
Proof.
  destruct g as [es i size | es i scroll_id pending |].
  - exists i. reflexivity.
  - exists i. reflexivity.
  - exists "". exact I.
Qed.

Lemma next_whatever_the_clock (now1 now2 : Z) (g : generator)
    (remote : Remote) :
  match next now1 g remote, next now2 g remote with
  | (Yield m1, g1, r1), (Yield m2, g2, r2) =>
      payload m1 = payload m2 /\ g1 = g2 /\ r1 = r2
  | (StopIteration, _, r1), (StopIteration, _, r2) => r1 = r2
  | (Throw e1, _, r1), (Throw e2, _, r2) => e1 = e2 /\ r1 = r2
  | _, _ => False
  end.
Proof.
  assert (Hyield : forall (es : Elasticsearch Remote) i sid hit pending,
            match yield_hit es i sid hit pending now1,
                  yield_hit es i sid hit pending now2 with
            | (Yield m1, g1), (Yield m2, g2) =>
                payload m1 = payload m2 /\ g1 = g2
            | (Throw e1, _), (Throw e2, _) => e1 = e2
            | _, _ => False
            end).
  { intros es i sid hit pending. unfold yield_hit.
    destruct (source <- getitem hit "_source" ;; validate_data source);
      [split |]; reflexivity. }
  assert (Henter : forall (es : Elasticsearch Remote) i answer,
            match enter_page es i answer now1,
                  enter_page es i answer now2 with
            | (Yield m1, g1), (Yield m2, g2) =>
                payload m1 = payload m2 /\ g1 = g2
            | (StopIteration, _), (StopIteration, _) => True
            | (Throw e1, _), (Throw e2, _) => e1 = e2
            | _, _ => False
            end).
  { intros es i answer. unfold enter_page.
    destruct (page <- answer ;; page_hits page)
      as [[sid [| hit pending]] | e]; [exact I | | reflexivity].
    specialize (Hyield es i sid hit pending).
    destruct (yield_hit es i sid hit pending now1) as [[m1 | | e1] g1],
             (yield_hit es i sid hit pending now2) as [[m2 | | e2] g2];
      try contradiction; exact Hyield. }
  destruct g as [es i size | es i scroll_id [| hit pending] |]; simpl.
  - destruct (search es i _ size "1m" remote) as [answer r].
    specialize (Henter es i answer).
    destruct (enter_page es i answer now1) as [[m1 | | e1] g1],
             (enter_page es i answer now2) as [[m2 | | e2] g2];
      try contradiction; intuition.
  - destruct (scroll es scroll_id "1m" remote) as [answer r].
    specialize (Henter es i answer).
    destruct (enter_page es i answer now1) as [[m1 | | e1] g1],
             (enter_page es i answer now2) as [[m2 | | e2] g2];
      try contradiction; intuition.
  - specialize (Hyield es i scroll_id hit pending).
    destruct (yield_hit es i scroll_id hit pending now1) as [[m1 | | e1] g1],
             (yield_hit es i scroll_id hit pending now2) as [[m2 | | e2] g2];
      try contradiction; intuition.
  - reflexivity.
Qed.

Lemma consume_whatever_the_clock (steps : nat) :
  forall (clock1 clock2 : nat -> Z) (g : generator) (remote : Remote),
    map payload (messages (consume steps clock1 g remote)) =
    map payload (messages (consume steps clock2 g remote)) /\
    ended (consume steps clock1 g remote) =
    ended (consume steps clock2 g remote) /\
    snd (consume steps clock1 g remote) =
    snd (consume steps clock2 g remote).
Proof.
  induction steps as [| steps IH]; intros clock1 clock2 g remote.
  - repeat split.
  - rewrite !consume_step.
    pose proof (next_whatever_the_clock (clock1 O) (clock2 O) g remote) as H.
    destruct (next (clock1 O) g remote) as [[[m1 | | e1] g1] r1],
             (next (clock2 O) g remote) as [[[m2 | | e2] g2] r2];
      try contradiction.
    + destruct H as (Hm & -> & ->).
      destruct (IH (fun k => clock1 (S k)) (fun k => clock2 (S k)) g2 r2)
        as (IH1 & IH2 & IH3).
      unfold messages, ended in *. simpl.
      rewrite Hm, IH1, IH2, IH3. repeat split.
    + subst r2. repeat split.
    + destruct H as [-> ->]. repeat split.
Qed.

End Reading.

(** ** The read operation *)

Section ReadOperation.

Context {Remote : Type}.
Variable new_Elasticsearch :
  json -> json -> json -> result (Elasticsearch Remote).

(** C4.  With one stream or more in the catalog, [read] returns the
    generator of the first one, whatever streams follow it; every message
    that generator produces is a record of the first stream. *)
Theorem C4_read_scrolls_the_first_stream_only (config : json)
    (first : ConfiguredAirbyteStream) (others : list ConfiguredAirbyteStream)
    (state : json) (es : Elasticsearch Remote) (page_size : json) :
  _get_es_client new_Elasticsearch config = Ok es ->
  getitem config "page_size" = Ok page_size ->
  read new_Elasticsearch config {| streams := first :: others |} state =
    Ok (Some (_scroll_through_index es (name (stream first)) page_size)) /\
  read new_Elasticsearch config {| streams := first :: others |} state =
    read new_Elasticsearch config {| streams := [first] |} state /\
  forall steps clock remote m,
    In m (messages
            (consume steps clock
               (_scroll_through_index es (name (stream first)) page_size)
               remote)) ->
    exists r, record m = Some r /\ record_stream r = name (stream first).
Proof.
  intros Hes Hsize. split; [| split].
  - unfold read. rewrite Hes. simpl. rewrite Hsize. reflexivity.
  - reflexivity.
  - intros steps clock remote m Hin.
    apply In_nth_error in Hin. destruct Hin as [k Hk].
    assert (Hi : yields_for (name (stream first))
                   (_scroll_through_index es (name (stream first)) page_size))
      by reflexivity.
    destruct (consume_nth _ _ _ _ _ _ _ Hi Hk) as [source ->].
    eexists. split; reflexivity.
Qed.

(** C8.  [read] does not look at its state argument: two calls that differ
    in it return the same generator, and consumed against the same engine
    the two generators produce the same records in the same order (stream
    and data; the timestamps follow the clock of each run) and end the same
    way. *)
Theorem C8_state_has_no_influence (config : json)
    (catalog : ConfiguredAirbyteCatalog) (state1 state2 : json) :
  read new_Elasticsearch config catalog state1 =
  read new_Elasticsearch config catalog state2 /\
  forall g1 g2 steps clock1 clock2 remote,
    read new_Elasticsearch config catalog state1 = Ok (Some g1) ->
    read new_Elasticsearch config catalog state2 = Ok (Some g2) ->
    map payload (messages (consume steps clock1 g1 remote)) =
    map payload (messages (consume steps clock2 g2 remote)) /\
    ended (consume steps clock1 g1 remote) =
    ended (consume steps clock2 g2 remote).
Proof.
  split; [reflexivity |].
  intros g1 g2 steps clock1 clock2 remote H1 H2.
  assert (Hg : g1 = g2).
  { unfold read in H1, H2. rewrite H1 in H2. injection H2 as ->.
    reflexivity. }
  subst g2.
  destruct (consume_whatever_the_clock steps clock1 clock2 g1 remote)
    as (Hm & He & _).
  split; assumption.
Qed.

(** C10.  With no stream in the catalog, [read] builds the client and
    returns [None]: never a generator, not even one that yields nothing. *)
Theorem C10_read_of_empty_catalog_is_None (config state : json) :
  (forall es,
      _get_es_client new_Elasticsearch config = Ok es ->
      read new_Elasticsearch config {| streams := [] |} state = Ok None) /\
  (forall g,
      read new_Elasticsearch config {| streams := [] |} state <>
      Ok (Some g)).
Proof.
  unfold read. split.
  - intros es Hes. rewrite Hes. reflexivity.
  - intros g H. bind_inv H. discriminate H.
Qed.

(** C9.  The [k]-th message of a generator is a record stamped with the
    clock of the [k]-th [next], truncated to whole seconds: a multiple of
    1000 milliseconds, at most the true instant and less than one second
    before it (for a clock after the epoch). *)
Theorem C9_emitted_at_has_second_granularity (steps : nat)
    (clock : nat -> Z) (g : @generator Remote) (remote : Remote)
    (k : nat) (m : AirbyteMessage) :
  nth_error (messages (consume steps clock g remote)) k = Some m ->
  exists r,
    record m = Some r /\
    emitted_at r = timestamp_ms (clock k) /\
    emitted_at r mod 1000 = 0 /\
    (0 <= clock k ->
     emitted_at r * 1000 <= clock k < emitted_at r * 1000 + 1000000).
Proof.
  intros H.
  destruct (every_generator_has_an_index g) as [i Hi].
  destruct (consume_nth _ _ _ _ _ _ _ Hi H) as [source ->].
  eexists. split; [reflexivity |]. simpl.
  split; [reflexivity |]. split.
  - apply timestamp_ms_whole_seconds.
  - apply timestamp_ms_truncates.
Qed.

End ReadOperation.

(** ** The records of a list of documents *)

Lemma records_of_length (index_name : string) (docs : list json) :
  forall clock,
    List.length (records_of index_name clock docs) = List.length docs.
Proof.
  induction docs as [| d ds IH]; intros clock; simpl.
  - reflexivity.
  - rewrite IH. reflexivity.
Qed.

Lemma records_of_nth (index_name : string) (docs : list json) :
  forall clock k m,
    nth_error (records_of index_name clock docs) k = Some m ->
    exists d, nth_error docs k = Some d /\
              m = record_message index_name d (clock k).
Proof.
  induction docs as [| d ds IH]; intros clock k m H.
  - destruct k; discriminate H.
  - destruct k as [| k]; simpl in H.
    + injection H as <-. exists d. split; reflexivity.
    + destruct (IH _ _ _ H) as (d' & Hd' & ->).
      exists d'. split; [exact Hd' | reflexivity].
Qed.

Lemma nth_error_map_inv {A B : Type} (f : A -> B) (l : list A) (k : nat)
    (b : B) :
  nth_error (map f l) k = Some b ->
  exists a, nth_error l k = Some a /\ f a = b.
Proof.
  revert k. induction l as [| x l IH]; intros k H.
  - destruct k; discriminate H.
  - destruct k as [| k]; simpl in H.
    + injection H as <-. exists x. split; reflexivity.
    + exact (IH k H).
Qed.

(** ** Reading from an engine that follows the scroll protocol *)

Lemma page_hits_of_page (page scroll_id : json) (batch : list (dict json)) :
  is_page page scroll_id batch ->
  exists hits,
    page_hits page = Ok (scroll_id, hits) /\
    Forall2 (fun hit d => getitem hit "_source" = Ok (JObj d)) hits batch.
Proof.
  intros (Hid & hits & Hhits & Hall).
  exists hits. split; [| exact Hall].
  unfold page_hits. rewrite Hid. cbn [bind].
  bind_inv Hhits. rewrite Ha. cbn [bind]. rewrite Hhits. cbn [bind].
  destruct hits as [| hit hits]; reflexivity.
Qed.

Section ScrollProtocol.

Context {Remote : Type}.
Variable es : Elasticsearch Remote.
Variable size : Z.
Variable holds : Remote -> string -> list (dict json) -> Prop.
Variable cursor_at : Remote -> json -> list (dict json) -> Prop.
Hypothesis protocol : scroll_protocol es size holds cursor_at.

Lemma yield_hit_of_document (index_name : string) (scroll_id hit : json)
    (pending : list json) (now : Z) (d : dict json) :
  getitem hit "_source" = Ok (JObj d) ->
  yield_hit es index_name scroll_id hit pending now =
  (Yield (record_message index_name (JObj d) now),
   Suspended es index_name scroll_id pending).
Proof.
  intros H. unfold yield_hit. rewrite H. reflexivity.
Qed.

Lemma enter_page_of_batch (index_name : string) (page scroll_id : json)
    (batch : list (dict json)) (now : Z) :
  is_page page scroll_id batch ->
  match batch with
  | [] => enter_page es index_name (Ok page) now = (StopIteration, Finished)
  | d :: ds =>
      exists pending,
        enter_page es index_name (Ok page) now =
          (Yield (record_message index_name (JObj d) now),
           Suspended es index_name scroll_id pending) /\
        Forall2 (fun hit d => getitem hit "_source" = Ok (JObj d)) pending ds
  end.
Proof.
  intros Hpage.
  destruct (page_hits_of_page _ _ _ Hpage) as (hits & Hhits & Hall).
  unfold enter_page. cbn [bind]. rewrite Hhits.
  destruct Hall as [| hit d hits ds Hhit Hall].
  - reflexivity.
  - exists hits. split; [| exact Hall].
    apply yield_hit_of_document. exact Hhit.
Qed.

(** From a page on: the first record of the batch is yielded by the call
    that fetched the page, the others and the following pages by the calls
    after it. *)
Lemma scroll_to_the_end (index_name : string) (steps : nat) :
  forall (remote : Remote) (scroll_id : json) (pending : list json)
         (held rest : list (dict json)) (clock : nat -> Z),
    cursor_at remote scroll_id rest ->
    Forall2 (fun hit d => getitem hit "_source" = Ok (JObj d)) pending held ->
    (List.length held + List.length rest < steps)%nat ->
    messages (consume steps clock
                (Suspended es index_name scroll_id pending) remote) =
      records_of index_name clock (map JObj (held ++ rest)%list) /\
    ended (consume steps clock
             (Suspended es index_name scroll_id pending) remote) =
      Exhausted.
Proof.
  induction steps as [| steps IH];
    intros remote scroll_id pending held rest clock Hcur Hall Hlen; [lia |].
  rewrite consume_step.
  destruct Hall as [| hit d pending held Hhit Hall].
  - cbn [next].
    destruct (scroll_moves_the_cursor protocol _ _ _ Hcur)
      as (page & scroll_id' & batch & rest' & remote' & Hscroll & Hpage
          & (Hsplit & Hsome & _) & Hcur').
    rewrite Hscroll.
    pose proof (enter_page_of_batch index_name _ _ _ (clock O) Hpage)
      as Henter.
    destruct batch as [| d ds].
    + rewrite Henter. cbn [app] in Hsplit. subst rest'.
      destruct rest as [| d rest]; [split; reflexivity |].
      exfalso. apply Hsome; [discriminate | reflexivity].
    + destruct Henter as (pending & Henter & Hall).
      rewrite Henter. subst rest.
      cbn [app map records_of messages ended fst snd].
      destruct (IH remote' scroll_id' pending ds rest'
                  (fun k => clock (S k)) Hcur' Hall) as [Hm He].
      { cbn [app List.length] in Hlen. rewrite length_app in Hlen. lia. }
      rewrite Hm, He. split; reflexivity.
  - cbn [next]. rewrite (yield_hit_of_document _ _ _ _ _ _ Hhit).
    cbn [app map records_of messages ended fst snd].
    destruct (IH remote scroll_id pending held rest
                (fun k => clock (S k)) Hcur Hall) as [Hm He].
    { cbn [List.length] in Hlen. lia. }
    rewrite Hm, He. split; reflexivity.
Qed.

(** From a fresh generator: the search opens the cursor, then the scroll
    goes to the end. *)
Lemma scroll_through_the_index (remote : Remote) (index_name : string)
    (docs : list (dict json)) (steps : nat) (clock : nat -> Z) :
  holds remote index_name docs ->
  (List.length docs < steps)%nat ->
  messages (consume steps clock
              (_scroll_through_index es index_name (JNum size)) remote) =
    records_of index_name clock (map JObj docs) /\
  ended (consume steps clock
           (_scroll_through_index es index_name (JNum size)) remote) =
    Exhausted.
Proof.
  intros Hholds Hlen.
  destruct steps as [| steps]; [lia |].
  rewrite consume_step. unfold _scroll_through_index. cbn [next].
  destruct (search_opens_a_cursor protocol _ _ _ Hholds)
    as (page & scroll_id & batch & rest & remote' & Hsearch & Hpage
        & (Hsplit & Hsome & _) & Hcur).
  unfold match_all_query in Hsearch. rewrite Hsearch.
  pose proof (enter_page_of_batch index_name _ _ _ (clock O) Hpage)
    as Henter.
  destruct batch as [| d ds].
  - rewrite Henter. cbn [app] in Hsplit. subst rest.
    destruct docs as [| d docs]; [split; reflexivity |].
    exfalso. apply Hsome; [discriminate | reflexivity].
  - destruct Henter as (pending & Henter & Hall).
    rewrite Henter. subst docs.
    cbn [app map records_of messages ended fst snd].
    destruct (scroll_to_the_end index_name steps remote' scroll_id pending
                ds rest (fun k => clock (S k)) Hcur Hall) as [Hm He].
    { cbn [app List.length] in Hlen. rewrite length_app in Hlen. lia. }
    rewrite Hm, He. split; reflexivity.
Qed.

End ScrollProtocol.

(** C1, amended.  On an engine that follows the scroll protocol at a
    positive page size, for an index of N documents, the generator that
    [read] returns yields exactly N messages and stops: the k-th is the
    record of the k-th document, tagged with the name of the index and
    stamped with the clock of its emission truncated to whole seconds.
    The stamp is no earlier than the call time truncated to whole seconds,
    hence less than one second before the call time. *)
Theorem C1_scroll_yields_every_document {Remote : Type}
    (new_Elasticsearch : json -> json -> json -> result (Elasticsearch Remote))
    (es : Elasticsearch Remote)
    (holds : Remote -> string -> list (dict json) -> Prop)
    (cursor_at : Remote -> json -> list (dict json) -> Prop)
    (config state : json)
    (first : ConfiguredAirbyteStream) (others : list ConfiguredAirbyteStream)
    (g : generator) (remote : Remote) (docs : list (dict json))
    (page_size : Z) (steps : nat) (clock : nat -> Z) (called : Z) :
  _get_es_client new_Elasticsearch config = Ok es ->
  scroll_protocol es page_size holds cursor_at ->
  read new_Elasticsearch config {| streams := first :: others |} state =
    Ok (Some g) ->
  getitem config "page_size" = Ok (JNum page_size) ->
  0 < page_size ->
  holds remote (name (stream first)) docs ->
  (List.length docs < steps)%nat ->
  (forall k, called <= clock k) ->
  let run := consume steps clock g remote in
  ended run = Exhausted /\
  messages run = records_of (name (stream first)) clock (map JObj docs) /\
  List.length (messages run) = List.length docs /\
  forall k m,
    nth_error (messages run) k = Some m ->
    exists d r,
      nth_error docs k = Some d /\
      type m = RECORD /\
      record m = Some r /\
      record_stream r = name (stream first) /\
      data r = JObj d /\
      emitted_at r = timestamp_ms (clock k) /\
      timestamp_ms called <= emitted_at r /\
      called - 1000000 < emitted_at r * 1000.
Proof.
  intros Hes Hprotocol Hread Hsize Hpos Hholds Hlen Hclock run.
  assert (Hg : g = _scroll_through_index es (name (stream first))
                     (JNum page_size)).
  { unfold read in Hread. rewrite Hes in Hread.
    cbn [bind streams] in Hread. rewrite Hsize in Hread.
    cbn [bind] in Hread. injection Hread as <-. reflexivity. }
  subst g.
  destruct (scroll_through_the_index es page_size holds cursor_at Hprotocol
              remote (name (stream first)) docs steps clock Hholds Hlen)
    as [Hm He].
  fold run in Hm, He.
  split; [exact He |]. split; [exact Hm |]. split.
  - rewrite Hm, records_of_length. apply length_map.
  - intros k m Hk. rewrite Hm in Hk.
    destruct (records_of_nth _ _ _ _ _ Hk) as (body & Hbody & ->).
    destruct (nth_error_map_inv _ _ _ _ Hbody) as (d & Hd & <-).
    exists d. eexists. split; [exact Hd |].
    split; [reflexivity |]. split; [reflexivity |].
    split; [reflexivity |]. split; [reflexivity |].
    split; [reflexivity |]. cbn [emitted_at]. split.
    + apply timestamp_ms_monotone. apply Hclock.
    + pose proof (timestamp_ms_within_a_second (clock k)) as Hb.
      specialize (Hclock k). lia.
Qed.

(** ** The reference engine follows the protocol *)

Lemma is_page_of (scroll_id index_name : string) (docs : list (dict json)) :
  is_page (page_of scroll_id index_name (map JObj docs)) (JStr scroll_id)
    docs.
Proof.
  split; [reflexivity |].
  exists (map (hit_of index_name) (map JObj docs)).
  split; [reflexivity |].
  induction docs as [| d docs IH]; simpl; constructor.
  - reflexivity.
  - exact IH.
Qed.

Lemma next_batch_firstn (size : Z) (docs : list (dict json)) :
  0 < size ->
  next_batch size docs (firstn (Z.to_nat size) docs)
    (skipn (Z.to_nat size) docs).
Proof.
  intros Hpos. split; [| split].
  - symmetry. apply firstn_skipn.
  - destruct (Z.to_nat size) as [| n] eqn:Hn; [lia |].
    destruct docs as [| d docs]; [intros H; contradiction |].
    intros _. discriminate.
  - apply firstn_le_length.
Qed.

Lemma reference_follows_the_protocol (size : Z) :
  0 < size <= max_result_window ->
  scroll_protocol reference_client size reference_holds
    (reference_cursor_at size).
Proof.
  intros [Hpos Hwindow]. constructor.
  - intros c index_name docs (Hup & i & Hidx & Hdocs).
    exists (page_of (fresh_scroll_id c) index_name
              (map JObj (firstn (Z.to_nat size) docs))),
           (JStr (fresh_scroll_id c)),
           (firstn (Z.to_nat size) docs), (skipn (Z.to_nat size) docs).
    eexists. split; [| split; [| split]].
    + cbn [search reference_client]. unfold reference_search.
      rewrite Hup, Hidx.
      change (query_of match_all_query) with (Some MatchAll).
      change (keeps_alive "1m") with true.
      apply Z.ltb_lt in Hpos. apply Z.leb_le in Hwindow.
      rewrite Hpos, Hwindow. cbn [andb matching].
      rewrite Hdocs, firstn_map. reflexivity.
    + apply is_page_of.
    + apply next_batch_firstn. exact Hpos.
    + split; [exact Hup |].
      eexists. eexists. split; [reflexivity |]. split.
      * cbn [cursors with_cursor]. apply dict_get_set_same.
      * split; [reflexivity |]. cbn [cursor_rest]. apply skipn_map.
  - intros c scroll_id docs (Hup & id & k & -> & Hcur & Hsize & Hrest).
    exists (page_of (next_scroll_id id) (cursor_index k)
              (map JObj (firstn (Z.to_nat size) docs))),
           (JStr (next_scroll_id id)),
           (firstn (Z.to_nat size) docs), (skipn (Z.to_nat size) docs).
    eexists. split; [| split; [| split]].
    + cbn [scroll reference_client]. unfold reference_scroll.
      rewrite Hup, Hcur.
      change (keeps_alive "1m") with true. cbn iota.
      rewrite Hsize, Hrest, firstn_map. reflexivity.
    + apply is_page_of.
    + apply next_batch_firstn. exact Hpos.
    + split; [exact Hup |].
      eexists. eexists. split; [reflexivity |]. split.
      * cbn [cursors with_cursor]. apply dict_get_set_same.
      * split; [reflexivity |]. cbn [cursor_rest]. apply skipn_map.
Qed.

(** ** The statements on the sample data *)

(** Three orders, pages of two: the search returns two hits, the first
    scroll one, the second none; three records of [orders] come out. *)
Lemma C1_three_orders_two_per_page :
  ended orders_run = Exhausted /\
  List.length (messages orders_run) = 3%nat /\
  map payload (messages orders_run) =
    [ (RECORD, Some ("orders", order 1));
      (RECORD, Some ("orders", order 2));
      (RECORD, Some ("orders", order 3)) ] /\
  map (fun m => option_map emitted_at (record m)) (messages orders_run) =
    [ Some 1700000000000; Some 1700000001000; Some 1700000001000 ].
Proof.
  destruct (C1_scroll_yields_every_document
              reference_new reference_client reference_holds
              (reference_cursor_at 2)
              sample_config JNull (stream_of "orders")
              [stream_of "customers"] orders_generator sample_cluster
              [order_fields 1; order_fields 2; order_fields 3]
              2 4 sample_clock call_time)
    as (He & Hm & Hn & _).
  - reflexivity.
  - apply reference_follows_the_protocol. unfold max_result_window. lia.
  - reflexivity.
  - reflexivity.
  - lia.
  - split; [reflexivity |]. exists orders. split; reflexivity.
  - simpl. lia.
  - intros k. unfold call_time, sample_clock. lia.
  - fold orders_run in He, Hm, Hn.
    split; [exact He |]. split; [exact Hn |].
    rewrite Hm. split; reflexivity.
Defined.

(** C1 as the claim states it fails on the timestamp: [read] is called at
    1700000000.5 s, the first [next] runs 0.2 s later, and the record it
    yields is stamped 1700000000000 ms, before the call. *)
Lemma C1_record_stamped_before_the_call :
  read reference_new sample_config sample_catalog JNull =
    Ok (Some orders_generator) /\
  (forall k, call_time <= sample_clock k) /\
  exists m r,
    nth_error (messages orders_run) 0 = Some m /\
    record m = Some r /\
    record_stream r = "orders" /\
    emitted_at r = 1700000000000 /\
    emitted_at r < call_time / 1000.
Proof.
  split; [reflexivity |]. split.
  - intros k. unfold call_time, sample_clock. lia.
  - eexists. eexists. split; [reflexivity |].
    split; [reflexivity |]. repeat split.
Qed.

(** The audit index comes second and its second field is a keyword:
    discovery stops there with the dedicated exception. *)
Lemma C2_keyword_field_aborts_discovery :
  discover reference_new sample_config audited_cluster =
  Raise (UnsupportedDataTypeException "Unsupported data type: keyword").
Proof.
  refine (proj2 (C2_unsupported_type_aborts_discovery
                   reference_new sample_config audited_cluster
                   reference_client _ ["orders"] [] "audit"
                   [("id", long_field)] [("at", text_field)]
                   [("type", JStr "keyword")] "actor" "keyword"
                   _ _ _ _ _ _ _) _ _).
  - reflexivity.
  - reflexivity.
  - reflexivity.
  - reflexivity.
  - reflexivity.
  - reflexivity.
  - reflexivity.
  - intros i [<- | []]. eexists. reflexivity.
  - eexists. reflexivity.
Defined.

(** C2 as the claim states it fails: [.kibana_1] has a keyword field and
    [orders] a field of type nested, two types the table lacks, yet
    discovery returns a catalog.  The system index is never looked at, and
    the nested field has a [properties] key and is skipped.  And where
    [audit], with its keyword field, comes after an index without mapping,
    discovery raises the [KeyError] of that index, not the dedicated
    exception. *)
Lemma C2_discovery_succeeds_despite_unsupported_types :
  indices_get reference_client "*" cluster_with_kibana =
    Ok (JObj [ (".kibana_1", JObj [("mappings", mappings kibana)]);
               ("orders", JObj [("mappings", mappings orders)]) ]) /\
  es_properties reference_client ".kibana_1" cluster_with_kibana =
    Ok (JObj [("config", JObj [("type", JStr "keyword")])]) /\
  dict_get es_to_json_type_mapping "keyword" = None /\
  es_properties reference_client "orders" cluster_with_kibana =
    Ok (JObj [ ("id", long_field);
               ("address", JObj [ ("type", JStr "nested");
                                  ("properties", JObj [("city", text_field)]) ]);
               ("customer", text_field) ]) /\
  dict_get es_to_json_type_mapping "nested" = None /\
  discover reference_new sample_config cluster_with_kibana =
    Ok {| catalog_streams := [orders_stream] |} /\
  es_properties reference_client "audit" cluster_with_drafts =
    Ok (JObj [ ("id", long_field); ("actor", keyword_field);
               ("at", text_field) ]) /\
  discover reference_new sample_config cluster_with_drafts =
    Raise (KeyError "properties").
Proof.
  repeat split; reflexivity.
Qed.

(** An engine that answers the ping, one that does not, and a constructor
    that raises. *)
Lemma C3_check_on_the_samples :
  check reference_new sample_config sample_cluster =
    Ok {| status := SUCCEEDED; message := None |} /\
  check reference_new sample_config offline_cluster =
    Ok {| status := FAILED; message := Some "Connection failed" |} /\
  check failing_new sample_config sample_cluster =
    Raise (ClientException "ImproperlyConfigured").
Proof.
  split; [| split].
  - apply (proj1 (C3_check_reports_the_ping
                    reference_new sample_config sample_cluster)
             reference_client); reflexivity.
  - apply (proj1 (proj2 (C3_check_reports_the_ping
                           reference_new sample_config offline_cluster))
             reference_client); reflexivity.
  - apply (proj2 (proj2 (proj2 (C3_check_reports_the_ping
                                  failing_new sample_config sample_cluster)))
             (JStr "localhost:9200") (JStr "admin") (JStr "admin"));
      reflexivity.
Defined.

(** C3 as the claim states it fails: when the constructor of the client
    raises, or the configuration has no host, [check] returns no status;
    the exception reaches the caller. *)
Lemma C3_exception_leaves_check :
  check failing_new sample_config sample_cluster =
    Raise (ClientException "ImproperlyConfigured") /\
  check reference_new (JObj []) sample_cluster = Raise (KeyError "host").
Proof.
  split; reflexivity.
Qed.

(** The catalog asks for [orders] and [customers]; only [orders] is read. *)
Lemma C4_only_orders_is_read :
  read reference_new sample_config sample_catalog JNull =
    Ok (Some orders_generator) /\
  read reference_new sample_config sample_catalog JNull =
    read reference_new sample_config {| streams := [stream_of "orders"] |}
      JNull /\
  exists r,
    record (record_message "orders" (order 3) (sample_clock 2)) = Some r /\
    record_stream r = "orders".
Proof.
  destruct (C4_read_scrolls_the_first_stream_only
              reference_new sample_config (stream_of "orders")
              [stream_of "customers"] JNull reference_client (JNum 2))
    as (Hread & Hsame & Hall).
  - reflexivity.
  - reflexivity.
  - split; [exact Hread |]. split; [exact Hsame |].
    apply (Hall 4%nat sample_clock sample_cluster).
    right. right. left. reflexivity.
Defined.

Lemma C5_kibana_is_not_discovered :
  name orders_stream <> ".kibana_1" /\
  name orders_stream <> ".opendistro_security".
Proof.
  apply (C5_discover_never_lists_system_indices
           reference_new sample_config cluster_with_kibana
           {| catalog_streams := [orders_stream] |} orders_stream).
  - reflexivity.
  - left. reflexivity.
Defined.

(** [id] is a long, hence an integer; the schema of [orders] is flat. *)
Lemma C6_orders_id_is_an_integer :
  dict_get [ ("id", JObj [("type", JStr "integer")]);
             ("customer", JObj [("type", JStr "string")]) ] "id" =
    Some (JObj [("type", JStr "integer")]) /\
  flat_schema orders_stream.
Proof.
  destruct (C6_fields_get_the_table_type
              reference_new sample_config sample_cluster) as [Hfield Hflat].
  split.
  - apply (Hfield reference_client "orders"
             [ ("id", long_field); ("address", nested_field);
               ("customer", text_field) ]
             _ "id" [("type", JStr "long")] "long" "integer").
    + reflexivity.
    + repeat constructor; simpl; intuition discriminate.
    + left. reflexivity.
    + reflexivity.
    + reflexivity.
    + reflexivity.
    + reflexivity.
  - apply (Hflat {| catalog_streams := [orders_stream] |} orders_stream).
    + reflexivity.
    + left. reflexivity.
Defined.

(** [address] has a sub-mapping: the properties of [orders] are those of
    the mapping without it, and none is named [address]. *)
Lemma C7_address_is_omitted :
  _get_index_json_properties reference_client "orders" sample_cluster =
    json_properties_loop [("id", long_field); ("customer", text_field)] [] /\
  dict_get [ ("id", JObj [("type", JStr "integer")]);
             ("customer", JObj [("type", JStr "string")]) ] "address" = None.
Proof.
  destruct (C7_nested_field_is_omitted reference_client sample_cluster
              "orders" [("id", long_field)] [("customer", text_field)]
              "address" nested_field) as [Hsame Habsent].
  - reflexivity.
  - reflexivity.
  - split; [exact Hsame |].
    apply Habsent.
    + simpl. intuition discriminate.
    + reflexivity.
Defined.

(** The three orders are stamped on whole seconds: the second one is
    emitted at 1700000001.0 s exactly, the third 0.3 s later with the same
    stamp. *)
Lemma C9_orders_are_stamped_on_whole_seconds :
  exists r,
    record (record_message "orders" (order 3) (sample_clock 2)) = Some r /\
    emitted_at r = 1700000001000 /\
    emitted_at r mod 1000 = 0 /\
    emitted_at r * 1000 <= sample_clock 2 < emitted_at r * 1000 + 1000000.
Proof.
  destruct (C9_emitted_at_has_second_granularity
              4 sample_clock orders_generator sample_cluster 2
              (record_message "orders" (order 3) (sample_clock 2)))
    as (r & Hr & Ht & Hmod & Hbound).
  - reflexivity.
  - exists r. split; [exact Hr |]. split; [rewrite Ht; reflexivity |].
    split; [exact Hmod |]. apply Hbound. unfold sample_clock. lia.
Defined.

Lemma C10_empty_catalog_gives_None :
  read reference_new sample_config {| streams := [] |} JNull = Ok None.
Proof.
  apply (proj1 (C10_read_of_empty_catalog_is_None
                  reference_new sample_config JNull) reference_client).
  reflexivity.
Defined.

(** Two states, two clocks: the same records of [orders]. *)
Lemma C8_two_states_same_records :
  map payload (messages (consume 4 sample_clock orders_generator sample_cluster)) =
  map payload (messages (consume 4 (fun _ => call_time) orders_generator
                           sample_cluster)).
Proof.
  apply (proj2 (C8_state_has_no_influence
                  reference_new sample_config sample_catalog
                  JNull (JObj [("cursor", JNum 3)]))
           orders_generator orders_generator 4%nat sample_clock
           (fun _ => call_time) sample_cluster);
    reflexivity.
Defined.

(** * Further properties of the connector *)

(** ** Building the client *)

Lemma _get_es_client_missing_key {Remote : Type}
    (new_Elasticsearch : json -> json -> json -> result (Elasticsearch Remote))
    (d : dict json) (k : string) :
  first_missing_key d = Some k ->
  _get_es_client new_Elasticsearch (JObj d) = Raise (KeyError k).
Proof.
  unfold first_missing_key, _get_es_client, getitem, dict_contains.
  cbn [find].
  destruct (dict_get d "host") as [host |]; cbn [negb bind].
  - destruct (dict_get d "username") as [username |]; cbn [negb bind].
    + destruct (dict_get d "password") as [password |]; cbn [negb bind].
      * discriminate.
      * intros H. injection H as <-. reflexivity.
    + intros H. injection H as <-. reflexivity.
  - intros H. injection H as <-. reflexivity.
Qed.

(** X1.  Every operation builds the client first.  When the configuration
    lacks [host], [username] or [password], [check], [discover] and [read]
    all raise [KeyError] for the first of the three that is missing,
    whatever the engine, the catalog and the client library do. *)
Theorem X1_missing_connection_key_stops_every_operation {Remote : Type}
    (new_Elasticsearch : json -> json -> json -> result (Elasticsearch Remote))
    (d : dict json) (k : string) (remote : Remote)
    (catalog : ConfiguredAirbyteCatalog) (state : json) :
  first_missing_key d = Some k ->
  check new_Elasticsearch (JObj d) remote = Raise (KeyError k) /\
  discover new_Elasticsearch (JObj d) remote = Raise (KeyError k) /\
  read new_Elasticsearch (JObj d) catalog state = Raise (KeyError k).
Proof.
  intros H.
  pose proof (_get_es_client_missing_key new_Elasticsearch d k H) as Hes.
  unfold check, discover, read. rewrite Hes. repeat split.
Qed.

Lemma X1_config_without_password :
  check reference_new (JObj config_without_password) sample_cluster =
    Raise (KeyError "password") /\
  discover reference_new (JObj config_without_password) sample_cluster =
    Raise (KeyError "password") /\
  read reference_new (JObj config_without_password) sample_catalog JNull =
    Raise (KeyError "password").
Proof.
  apply (X1_missing_connection_key_stops_every_operation
           reference_new config_without_password "password"
           sample_cluster sample_catalog JNull).
  reflexivity.
Defined.

(** ** Which indices discovery lists *)

Lemma dict_set_fresh {V : Type} (d : dict V) (k : string) (v : V) :
  ~ In k (dict_keys d) -> dict_set d k v = (d ++ [(k, v)])%list.
Proof.
  induction d as [| [k0 v0] d IH]; simpl; intros Hk.
  - reflexivity.
  - destruct (String.eqb k k0) eqn:E.
    + apply String.eqb_eq in E. exfalso. apply Hk. left. symmetry. exact E.
    + rewrite IH; [reflexivity |]. intros Hin. apply Hk. right. exact Hin.
Qed.

Lemma dict_of_items_distinct {V : Type} (its : list (string * V)) :
  NoDup (map fst its) -> dict_of_items its = its.
Proof.
  unfold dict_of_items.
  assert (G : forall acc : dict V,
             NoDup (map fst (acc ++ its)%list) ->
             fold_left (fun d kv => dict_set d (fst kv) (snd kv)) its acc =
             (acc ++ its)%list).
  { induction its as [| [k v] its IH]; intros acc Hnd; simpl.
    - rewrite app_nil_r. reflexivity.
    - rewrite map_app in Hnd. simpl in Hnd.
      rewrite dict_set_fresh.
      + rewrite IH.
        * rewrite <- app_assoc. reflexivity.
        * rewrite <- app_assoc. simpl. rewrite map_app. exact Hnd.
      + apply NoDup_remove_2 in Hnd. intros Hin. apply Hnd.
        apply in_or_app. left. exact Hin. }
  intros Hnd. exact (G [] Hnd).
Qed.

Lemma filter_keys {V : Type} (p : string -> bool) (its : list (string * V)) :
  map fst (filter (fun kv => p (fst kv)) its) = filter p (map fst its).
Proof.
  induction its as [| [k v] its IH]; simpl.
  - reflexivity.
  - destruct (p k); simpl; rewrite IH; reflexivity.
Qed.

Lemma NoDup_filter_keys (p : string -> bool) (l : list string) :
  NoDup l -> NoDup (filter p l).
Proof.
  induction 1 as [| x l Hx Hnd IH]; simpl.
  - constructor.
  - destruct (p x); [| exact IH].
    constructor; [| exact IH].
    intros Hin. apply filter_In in Hin. exact (Hx (proj1 Hin)).
Qed.

Lemma _get_indices_distinct {Remote : Type} (es : Elasticsearch Remote)
    (remote : Remote) (all : dict json) :
  indices_get es "*" remote = Ok (JObj all) ->
  NoDup (dict_keys all) ->
  _get_indices es remote = Ok (filter not_system_index all).
Proof.
  intros Hall Hnd. unfold _get_indices. rewrite Hall. simpl.
  rewrite dict_of_items_distinct; [reflexivity |].
  change not_system_index with (fun kv : string * json => listed (fst kv)).
  rewrite filter_keys. apply NoDup_filter_keys. exact Hnd.
Qed.

Lemma discover_loop_full_refresh {Remote : Type} (es : Elasticsearch Remote)
    (remote : Remote) (index_names : list string) :
  forall acc out,
    discover_loop es remote index_names acc = Ok out ->
    Forall (fun s => supported_sync_modes s = ["full_refresh"]) acc ->
    Forall (fun s => supported_sync_modes s = ["full_refresh"]) out.
Proof.
  induction index_names as [| i rest IH]; simpl; intros acc out H Hacc.
  - injection H as <-. exact Hacc.
  - bind_inv H. apply (IH _ _ H).
    apply Forall_app. split; [exact Hacc |].
    constructor; [reflexivity | constructor].
Qed.

(** X2.  When discovery succeeds, its catalog has one stream for each index
    the engine reports that is not a system index, in the order of the
    engine's answer, and each stream offers the full-refresh mode only. *)
Theorem X2_discover_lists_the_other_indices_in_order {Remote : Type}
    (new_Elasticsearch : json -> json -> json -> result (Elasticsearch Remote))
    (config : json) (remote : Remote) (es : Elasticsearch Remote)
    (all : dict json) (catalog : AirbyteCatalog) :
  _get_es_client new_Elasticsearch config = Ok es ->
  indices_get es "*" remote = Ok (JObj all) ->
  NoDup (dict_keys all) ->
  discover new_Elasticsearch config remote = Ok catalog ->
  map name (catalog_streams catalog) = filter listed (dict_keys all) /\
  Forall (fun s => supported_sync_modes s = ["full_refresh"])
    (catalog_streams catalog).
Proof.
  intros Hes Hall Hnd H. unfold discover in H.
  rewrite Hes in H. cbn [bind] in H.
  rewrite (_get_indices_distinct es remote all Hall Hnd) in H.
  cbn [bind] in H. bind_inv H. injection H as <-. cbn [catalog_streams].
  split.
  - rewrite (discover_loop_names _ _ _ _ _ Ha). simpl.
    unfold dict_keys.
    change not_system_index with (fun kv : string * json => listed (fst kv)).
    apply filter_keys.
  - exact (discover_loop_full_refresh _ _ _ _ _ Ha (Forall_nil _)).
Qed.

Lemma X2_orders_after_kibana :
  map name [orders_stream] = ["orders"] /\
  Forall (fun s => supported_sync_modes s = ["full_refresh"]) [orders_stream].
Proof.
  apply (X2_discover_lists_the_other_indices_in_order
           reference_new sample_config cluster_with_kibana reference_client
           [ (".kibana_1", JObj [("mappings", mappings kibana)]);
             ("orders", JObj [("mappings", mappings orders)]) ]
           {| catalog_streams := [orders_stream] |}).
  - reflexivity.
  - reflexivity.
  - repeat constructor; simpl; intuition discriminate.
  - reflexivity.
Defined.

(** ** When the properties of an index can be computed *)

Lemma json_properties_loop_convertible (its : dict json) :
  forall acc,
    NoDup (dict_keys acc ++ dict_keys its)%list ->
    Forall (fun kv => convertible (snd kv)) its ->
    exists properties,
      json_properties_loop its acc = Ok properties /\
      dict_keys properties =
        (dict_keys acc
         ++ map fst (filter (fun kv => negb (is_nested (snd kv))) its))%list.
Proof.
  induction its as [| [f attrs] its IH]; intros acc Hnd Hall.
  - exists acc. split; [reflexivity |]. simpl. rewrite app_nil_r. reflexivity.
  - apply Forall_cons_iff in Hall. destruct Hall as [Hf Hall].
    destruct Hf as (a & Ha & Hcases). simpl in Ha. subst attrs.
    cbn [json_properties_loop py_in bind filter snd is_nested].
    simpl dict_keys in Hnd.
    destruct (dict_contains a "properties") eqn:Hnested; cbn [negb].
    + apply IH; [| exact Hall]. exact (NoDup_remove_1 _ _ _ Hnd).
    + destruct Hcases as [Hc | (declared & g & Htype & Hg)];
        [discriminate Hc |].
      rewrite (json_property_of_type _ _ Htype), Hg. cbn [bind].
      assert (Hfresh : ~ In f (dict_keys acc)).
      { intros Hin. apply (NoDup_remove_2 _ _ _ Hnd).
        apply in_or_app. left. exact Hin. }
      rewrite (dict_set_fresh _ _ _ Hfresh).
      destruct (IH (acc ++ [(f, JObj [("type", JStr g)])])%list)
        as (properties & Hloop & Hkeys).
      * unfold dict_keys. rewrite map_app. simpl.
        rewrite <- app_assoc. exact Hnd.
      * exact Hall.
      * exists properties. split; [exact Hloop |].
        rewrite Hkeys. unfold dict_keys. rewrite map_app. simpl.
        rewrite <- app_assoc. reflexivity.
Qed.

(** X3.  When the field names of a mapping are distinct and every field
    either has a [properties] key or declares a type of the table, the
    properties of the index are computed without error, and their names are
    the names of the fields without [properties] key, in the order of the
    mapping. *)
Theorem X3_convertible_mapping_has_properties {Remote : Type}
    (es : Elasticsearch Remote) (remote : Remote) (index_name : string)
    (fields : dict json) :
  es_properties es index_name remote = Ok (JObj fields) ->
  NoDup (dict_keys fields) ->
  Forall (fun kv => convertible (snd kv)) fields ->
  exists properties,
    _get_index_json_properties es index_name remote = Ok properties /\
    dict_keys properties =
      map fst (filter (fun kv => negb (is_nested (snd kv))) fields).
Proof.
  intros Hmap Hnd Hall.
  unfold _get_index_json_properties. rewrite Hmap. cbn [bind items].
  exact (json_properties_loop_convertible fields [] Hnd Hall).
Qed.

Lemma X3_orders_has_two_properties :
  exists properties,
    _get_index_json_properties reference_client "orders" sample_cluster =
      Ok properties /\
    dict_keys properties = ["id"; "customer"].
Proof.
  apply (X3_convertible_mapping_has_properties
           reference_client sample_cluster "orders"
           [ ("id", long_field); ("address", nested_field);
             ("customer", text_field) ]).
  - reflexivity.
  - repeat constructor; simpl; intuition discriminate.
  - repeat constructor.
    + exists [("type", JStr "long")]. split; [reflexivity |].
      right. exists "long", "integer". split; reflexivity.
    + eexists. split; [reflexivity |]. left. reflexivity.
    + exists [("type", JStr "text")]. split; [reflexivity |].
      right. exists "text", "string". split; reflexivity.
Defined.

(** X4.  An index whose mapping has no [properties] key (an index without
    fields) stops discovery with [KeyError: 'properties'], once the indices
    listed before it have been converted. *)
Theorem X4_index_without_properties_stops_discovery {Remote : Type}
    (new_Elasticsearch : json -> json -> json -> result (Elasticsearch Remote))
    (config : json) (remote : Remote) (es : Elasticsearch Remote)
    (found : dict json) (earlier later : list string) (index_name : string)
    (response of_index : json) (mapping : dict json) :
  _get_es_client new_Elasticsearch config = Ok es ->
  _get_indices es remote = Ok found ->
  dict_keys found = (earlier ++ index_name :: later)%list ->
  (forall i, In i earlier ->
             exists p, _get_index_json_properties es i remote = Ok p) ->
  indices_get_mapping es index_name remote = Ok response ->
  getitem response index_name = Ok of_index ->
  getitem of_index "mappings" = Ok (JObj mapping) ->
  dict_get mapping "properties" = None ->
  discover new_Elasticsearch config remote = Raise (KeyError "properties").
Proof.
  intros Hes Hfound Hkeys Hearlier Hresp Hidx Hmap Hnone.
  assert (Hbad : _get_index_json_properties es index_name remote =
                 Raise (KeyError "properties")).
  { unfold _get_index_json_properties, es_properties.
    rewrite Hresp. cbn [bind]. rewrite Hidx. cbn [bind].
    rewrite Hmap. cbn [bind getitem]. rewrite Hnone. reflexivity. }
  unfold discover. rewrite Hes. cbn [bind]. rewrite Hfound. cbn [bind].
  rewrite Hkeys.
  rewrite (discover_loop_first_failure es remote earlier later _ _
             Hbad Hearlier []).
  reflexivity.
Qed.

Lemma X4_drafts_stops_discovery :
  discover reference_new sample_config cluster_with_drafts =
  Raise (KeyError "properties").
Proof.
  refine (X4_index_without_properties_stops_discovery
            reference_new sample_config cluster_with_drafts reference_client
            _ [] ["audit"] "drafts" _ _ [] _ _ _ _ _ _ _ _).
  - reflexivity.
  - reflexivity.
  - reflexivity.
  - intros i [].
  - reflexivity.
  - reflexivity.
  - reflexivity.
  - reflexivity.
Defined.

(** X5.  A field that has neither a [properties] key nor a [type] key
    stops the loop with [KeyError: 'type'], not with the dedicated
    exception: the handler evaluates the failed lookup again for its
    message. *)
Theorem X5_field_without_type_raises_KeyError {Remote : Type}
    (es : Elasticsearch Remote) (remote : Remote) (index_name : string)
    (before after a : dict json) (f : string) :
  es_properties es index_name remote =
    Ok (JObj (before ++ (f, JObj a) :: after)%list) ->
  (exists acc, json_properties_loop before [] = Ok acc) ->
  dict_contains a "properties" = false ->
  dict_get a "type" = None ->
  _get_index_json_properties es index_name remote = Raise (KeyError "type").
Proof.
  intros Hmap [acc Hacc] Hflat Hnone.
  unfold _get_index_json_properties. rewrite Hmap. cbn [bind items].
  rewrite json_properties_loop_app, Hacc.
  cbn [bind json_properties_loop py_in]. rewrite Hflat.
  unfold json_property. cbn [getitem]. rewrite Hnone. reflexivity.
Qed.

Lemma X5_notes_body_has_no_type :
  _get_index_json_properties reference_client "notes" cluster_with_notes =
  Raise (KeyError "type").
Proof.
  apply (X5_field_without_type_raises_KeyError
           reference_client cluster_with_notes "notes"
           [("id", long_field)] [] [("enabled", JBool false)] "body").
  - reflexivity.
  - eexists. reflexivity.
  - reflexivity.
  - reflexivity.
Defined.

(** ** The read operation and its generator *)

(** X6.  [read] looks up [page_size] inside its loop: with a stream in the
    catalog a configuration without [page_size] raises [KeyError:
    'page_size'], while with an empty catalog the same configuration is
    accepted and [read] returns [None]. *)
Theorem X6_page_size_is_read_for_the_first_stream {Remote : Type}
    (new_Elasticsearch : json -> json -> json -> result (Elasticsearch Remote))
    (d : dict json) (es : Elasticsearch Remote)
    (first : ConfiguredAirbyteStream) (others : list ConfiguredAirbyteStream)
    (state : json) :
  _get_es_client new_Elasticsearch (JObj d) = Ok es ->
  dict_get d "page_size" = None ->
  read new_Elasticsearch (JObj d) {| streams := first :: others |} state =
    Raise (KeyError "page_size") /\
  read new_Elasticsearch (JObj d) {| streams := [] |} state = Ok None.
Proof.
  intros Hes Hnone. unfold read. rewrite Hes. cbn [bind streams getitem].
  rewrite Hnone. split; reflexivity.
Qed.

Lemma X6_config_without_page_size :
  read reference_new config_without_page_size sample_catalog JNull =
    Raise (KeyError "page_size") /\
  read reference_new config_without_page_size {| streams := [] |} JNull =
    Ok None.
Proof.
  apply (X6_page_size_is_read_for_the_first_stream
           reference_new
           [ ("host", JStr "localhost:9200"); ("username", JStr "admin");
             ("password", JStr "admin") ]
           reference_client (stream_of "orders") [stream_of "customers"]
           JNull).
  - reflexivity.
  - reflexivity.
Defined.

(** X7.  When the wall clock does not go backwards between two calls of
    [next], the records come out with non-decreasing [emitted_at]. *)
Theorem X7_emitted_at_never_decreases {Remote : Type} (steps : nat)
    (clock : nat -> Z) (g : @generator Remote) (remote : Remote)
    (j k : nat) (mj mk : AirbyteMessage) :
  (forall a b, (a <= b)%nat -> clock a <= clock b) ->
  (j <= k)%nat ->
  nth_error (messages (consume steps clock g remote)) j = Some mj ->
  nth_error (messages (consume steps clock g remote)) k = Some mk ->
  exists rj rk,
    record mj = Some rj /\ record mk = Some rk /\
    emitted_at rj <= emitted_at rk.
Proof.
  intros Hclock Hjk Hj Hk.
  destruct (every_generator_has_an_index g) as [i Hi].
  destruct (consume_nth _ _ _ _ _ _ _ Hi Hj) as [sj ->].
  destruct (consume_nth _ _ _ _ _ _ _ Hi Hk) as [sk ->].
  eexists. eexists. split; [reflexivity |]. split; [reflexivity |].
  cbn [emitted_at]. apply timestamp_ms_monotone. apply Hclock. exact Hjk.
Qed.

Lemma X7_orders_stamps_in_order :
  exists rj rk,
    record (record_message "orders" (order 1) (sample_clock 0)) = Some rj /\
    record (record_message "orders" (order 3) (sample_clock 2)) = Some rk /\
    emitted_at rj <= emitted_at rk.
Proof.
  apply (X7_emitted_at_never_decreases
           4 sample_clock orders_generator sample_cluster 0 2).
  - intros a b Hab. unfold sample_clock. lia.
  - lia.
  - reflexivity.
  - reflexivity.
Defined.

(** X9.  The hits of a page are emitted without a request: a generator
    suspended with [pending] hits whose [_source] are dicts yields one
    record per hit, in order, with that dict as its body, and the engine is
    as it was. *)
Theorem X9_a_page_is_emitted_without_requests {Remote : Type}
    (es : Elasticsearch Remote) (index_name : string) (scroll_id : json)
    (pending : list json) (sources : list (dict json)) (clock : nat -> Z)
    (remote : Remote) :
  Forall2 (fun hit d => getitem hit "_source" = Ok (JObj d))
    pending sources ->
  messages (consume (List.length pending) clock
              (Suspended es index_name scroll_id pending) remote) =
    records_of index_name clock (map JObj sources) /\
  snd (consume (List.length pending) clock
         (Suspended es index_name scroll_id pending) remote) = remote.
Proof.
  intros Hall. revert clock.
  induction Hall as [| hit d pending sources Hhit Hall IH];
    intros clock.
  - split; reflexivity.
  - cbn [List.length]. rewrite consume_step.
    cbn [next]. unfold yield_hit. rewrite Hhit.
    destruct (IH (fun k => clock (S k))) as [Hm Hr].
    cbn [bind validate_data map messages fst snd records_of].
    fold (messages (consume (List.length pending) (fun k => clock (S k))
                      (Suspended es index_name scroll_id pending) remote)).
    rewrite Hm, Hr. split; reflexivity.
Qed.

Lemma X9_two_held_orders :
  messages (consume 2 sample_clock
              (Suspended reference_client "orders" (JStr "cursor-0")
                 [hit_of "orders" (order 1); hit_of "orders" (order 2)])
              offline_cluster) =
    records_of "orders" sample_clock [order 1; order 2] /\
  snd (consume 2 sample_clock
         (Suspended reference_client "orders" (JStr "cursor-0")
            [hit_of "orders" (order 1); hit_of "orders" (order 2)])
         offline_cluster) = offline_cluster.
Proof.
  apply (X9_a_page_is_emitted_without_requests
           reference_client "orders" (JStr "cursor-0")
           [hit_of "orders" (order 1); hit_of "orders" (order 2)]
           [order_fields 1; order_fields 2] sample_clock offline_cluster).
  repeat constructor.
Defined.

(** ** What a status of [check] tells *)

(** X11.  A status that [check] returns tells what the ping answered:
    SUCCEEDED comes without message and only after a ping that returned
    true, FAILED comes with the message "Connection failed" and only after
    a ping that returned false; there is no other status. *)
Theorem X11_a_status_reports_the_ping {Remote : Type}
    (new_Elasticsearch : json -> json -> json -> result (Elasticsearch Remote))
    (config : json) (remote : Remote) (answer : AirbyteConnectionStatus) :
  check new_Elasticsearch config remote = Ok answer ->
  exists es,
    _get_es_client new_Elasticsearch config = Ok es /\
    ((ping es remote = Ok true /\
      answer = {| status := SUCCEEDED; message := None |}) \/
     (ping es remote = Ok false /\
      answer = {| status := FAILED; message := Some "Connection failed" |})).
Proof.
  unfold check. intros H. bind_inv H. bind_inv H.
  exists a. split; [exact Ha |].
  destruct a0; cbn [negb] in H; injection H as <-.
  - left. split; [exact Ha0 | reflexivity].
  - right. split; [exact Ha0 | reflexivity].
Qed.

Lemma X11_offline_cluster_fails_the_check :
  exists es,
    _get_es_client reference_new sample_config = Ok es /\
    ping es offline_cluster = Ok false.
Proof.
  destruct (X11_a_status_reports_the_ping
              reference_new sample_config offline_cluster
              {| status := FAILED; message := Some "Connection failed" |})
    as (es & Hes & [[_ Habsurd] | [Hping _]]).
  - reflexivity.
  - discriminate Habsurd.
  - exists es. split; [exact Hes | exact Hping].
Defined.

(** ** Stamps before the epoch *)

Lemma timestamp_ms_before_the_epoch (now : Z) :
  now <= 0 ->
  now <= timestamp_ms now * 1000 < now + 1000000.
Proof.
  intros Hnow. unfold timestamp_ms.
  pose proof (Z.quot_rem now 1000000 ltac:(discriminate)) as Hqr.
  pose proof (Z.rem_nonpos now 1000000 ltac:(discriminate) Hnow) as Hle.
  pose proof (Z.rem_bound_abs now 1000000 ltac:(discriminate)) as Hb.
  change (Z.abs 1000000) with 1000000 in Hb.
  lia.
Qed.

(** X12.  [int] truncates towards zero, so the stamp of a record is always
    within one second of the clock at its emission, and on the side of the
    epoch: for a clock before the epoch the stamp is not earlier than the
    instant but up to one second later. *)
Theorem X12_stamp_is_within_a_second_towards_the_epoch {Remote : Type}
    (steps : nat) (clock : nat -> Z) (g : @generator Remote)
    (remote : Remote) (k : nat) (m : AirbyteMessage) :
  nth_error (messages (consume steps clock g remote)) k = Some m ->
  exists r,
    record m = Some r /\
    clock k - 1000000 < emitted_at r * 1000 < clock k + 1000000 /\
    (clock k <= 0 ->
     clock k <= emitted_at r * 1000 < clock k + 1000000).
Proof.
  intros H.
  destruct (every_generator_has_an_index g) as [i Hi].
  destruct (consume_nth _ _ _ _ _ _ _ Hi H) as [source ->].
  eexists. split; [reflexivity |]. cbn [emitted_at]. split.
  - apply timestamp_ms_within_a_second.
  - apply timestamp_ms_before_the_epoch.
Qed.

Lemma X12_stamp_of_1969 :
  exists r,
    record (record_message "orders" (order 1) (-1500000)) = Some r /\
    emitted_at r = -1000 /\
    -1500000 <= emitted_at r * 1000 < -1500000 + 1000000.
Proof.
  destruct (X12_stamp_is_within_a_second_towards_the_epoch
              4 (fun _ => -1500000) orders_generator sample_cluster 0
              (record_message "orders" (order 1) (-1500000)))
    as (r & Hr & _ & Hbefore).
  - reflexivity.
  - exists r. split; [exact Hr |].
    assert (Hstamp : emitted_at r = -1000).
    { cbn [record record_message] in Hr. injection Hr as <-. reflexivity. }
    split; [exact Hstamp |]. apply Hbefore. lia.
Defined.
